(** * Nested app auth controller: silent acquisition and cache hydration

    A shallow embedding of
    [lib/msal-browser/src/controllers/NestedAppAuthController.ts].

    The controller is a stateful, exception-throwing program over a set of
    collaborators (browser storage, host bridge, adapter, crypto, event
    handler, performance client, logger).  Its methods are embedded as
    computations in a state-and-exception monad over a [World] that holds
    the storage, the host, the GUID generator, the clock and a chronological
    trace of every collaborator call the controller makes.  A JavaScript
    [throw] keeps the state reached so far, so does the monad.

    The collaborators whose code is not part of the controller are
    interfaces (type classes); the controller is written once, for every
    implementation of them.  The adapter's two conversions, the bridge's
    token calls and the storage's asynchronous [hydrateCache] may throw;
    storage reads, [removeAccountContext], [setAccount],
    [setActiveAccount], event emission, telemetry and logging complete
    normally, and [startMeasurement] always returns a measurement, as its
    type says.  A small reference implementation at the end of the
    definitions instantiates the interfaces on concrete inputs. *)

From stdpp Require Import base strings list gmap pretty.
From Stdlib Require Import ZArith Lia.

Open Scope Z_scope.

(** ** Data model *)

Module AccountInfo.
Record t := mk {
  homeAccountId : string;
  environment : string;
  tenantId : string;
  username : string;
  localAccountId : string }.
End AccountInfo.

(** Modelled from the spec: [AccountEntity.createFromAccountInfo] of
    msal-common is not under src/; "derive an account entity from
    result.account (plus optional cloud-graph/host hints)". *)
Module AccountEntity.
Record t := mk {
  info : AccountInfo.t;
  cloudGraphHostName : option string;
  msGraphHost : option string }.

Definition createFromAccountInfo (accountInfo : AccountInfo.t)
    (cloudGraphHostName msGraphHost : option string) : t :=
  mk accountInfo cloudGraphHostName msGraphHost.
End AccountEntity.

(** [SilentRequest], [SsoSilentRequest], [PopupRequest] and
    [RedirectRequest] overlap structurally; the controller reads the fields
    below and copies every other one with an object spread, [claims] stands
    for those.  An absent optional field is [None]. *)
Module Request.
Record t := mk {
  correlationId : option string;
  account : option AccountInfo.t;
  authority : option string;
  scopes : option (list string);
  claims : option string }.

(** [{ ...request, correlationId: guid }] *)
Definition withCorrelationId (request : t) (guid : string) : t :=
  mk (Some guid) (account request) (authority request) (scopes request)
     (claims request).
End Request.

(** [BaseAuthRequest]: the normalized request of the cache lookup. *)
Module BaseAuthRequest.
Record t := mk {
  correlationId : string;
  authority : string;
  scopes : list string;
  account : option AccountInfo.t;
  claims : option string }.
End BaseAuthRequest.

Module AccessTokenEntity.
Record t := mk {
  homeAccountId : string;
  realm : string;
  target : list string;
  secret : string;
  cachedAt : Z;
  expiresOn : Z }.
End AccessTokenEntity.

Module IdTokenEntity.
Record t := mk {
  homeAccountId : string;
  realm : string;
  secret : string }.
End IdTokenEntity.

Module TokenKeys.
Record t := mk {
  idToken : list string;
  accessToken : list string;
  refreshToken : list string }.
End TokenKeys.

Module AuthenticationResult.
Record t := mk {
  account : AccountInfo.t;
  accessToken : string;
  idToken : string;
  scopes : list string;
  expiresOn : Z;
  correlationId : string;
  requestId : option string;
  fromCache : bool;
  cloudGraphHostName : option string;
  msGraphHost : option string }.
End AuthenticationResult.

Module BrowserConfiguration.
Record t := mk {
  clientId : string;
  tokenRenewalOffsetSeconds : Z }.
End BrowserConfiguration.

(** Values that the controller and its collaborators throw. *)
Inductive JsError :=
  | BridgeError (status : string) (description : string)
  | AuthError (errorCode : string) (errorMessage : string)
  | NestedAppAuthError (errorCode : string).

(** Modelled from the spec: [NestedAppAuthError.createUnsupportedError] is
    not under src/; the dedicated "unsupported in this operating mode"
    error. *)
Definition createUnsupportedError : JsError :=
  NestedAppAuthError "unsupported_method".

(** Modelled from the spec: [OIDC_DEFAULT_SCOPES] of msal-common is not
    under src/; "the standard OIDC minimum set". *)
Definition OIDC_DEFAULT_SCOPES : list string :=
  ["openid"; "profile"; "offline_access"].

(** Modelled from the spec: [TimeUtils] of msal-common is not under src/.
    A cached access token is "usable only if cachedAt is not after current
    time in a way that indicates the clock moved backward, and current time
    is strictly before expiresOn minus a configured renewal-offset
    margin". *)
Module TimeUtils.
Definition wasClockTurnedBack (now cachedAt : Z) : bool :=
  now <? cachedAt.

Definition isTokenExpired (now expiresOn offset : Z) : bool :=
  expiresOn - offset <=? now.
End TimeUtils.

(** ** Events, telemetry and the call trace *)

Inductive EventType :=
  | ACQUIRE_TOKEN_START
  | ACQUIRE_TOKEN_SUCCESS
  | ACQUIRE_TOKEN_FAILURE.

Inductive InteractionType := Popup | Silent.

Inductive EventPayload :=
  | PayloadRequest (request : Request.t)
  | PayloadResult (result : AuthenticationResult.t)
  | PayloadNull.

Inductive PerformanceEvents :=
  | AcquireTokenPopup
  | SsoSilent
  | AcquireTokenSilent.

Inductive PerfField :=
  | nestedAppAuthRequest (b : bool)
  | visibilityChangeCount (n : nat)
  | accessTokenSize (n : nat)
  | idTokenSize (n : nat)
  | success (b : bool)
  | requestId (id : option string).

(** One entry per call the controller makes on a collaborator.  [NaaReq] is the
    host bridge's request type. *)
Inductive Call (NaaReq : Type) :=
  | LoggerVerbose (message : string)
  | LoggerError (message : string)
  | CryptoCreateNewGuid (guid : string)
  | EmitEvent (eventType : EventType) (interaction : InteractionType)
      (payload : EventPayload) (error : option JsError)
  | StartMeasurement (name : PerformanceEvents) (correlationId : option string)
  | MeasurementAdd (name : PerformanceEvents) (fields : list PerfField)
  | MeasurementIncrement (name : PerformanceEvents) (fields : list PerfField)
  | MeasurementEnd (name : PerformanceEvents) (fields : list PerfField)
      (error : option JsError)
  | BridgeGetAccountContext
  | BridgeGetTokenSilent (naaRequest : NaaReq)
  | BridgeGetTokenInteractive (naaRequest : NaaReq)
  | GetAccountByHomeId (homeAccountId : string)
  | StorageGetTokenKeys
  | StorageGetAccessToken (account : AccountInfo.t)
      (request : BaseAuthRequest.t) (tenantId : string)
  | StorageGetIdToken (account : AccountInfo.t) (tenantId : string)
  | StorageRemoveAccountContext (entity : AccountEntity.t)
  | StorageSetAccount (entity : AccountEntity.t)
  | StorageHydrateCache (result : AuthenticationResult.t) (request : Request.t)
  | StorageSetActiveAccount (account : option AccountInfo.t).

Arguments LoggerVerbose {NaaReq}.
Arguments LoggerError {NaaReq}.
Arguments CryptoCreateNewGuid {NaaReq}.
Arguments EmitEvent {NaaReq}.
Arguments StartMeasurement {NaaReq}.
Arguments MeasurementAdd {NaaReq}.
Arguments MeasurementIncrement {NaaReq}.
Arguments MeasurementEnd {NaaReq}.
Arguments BridgeGetAccountContext {NaaReq}.
Arguments BridgeGetTokenSilent {NaaReq}.
Arguments BridgeGetTokenInteractive {NaaReq}.
Arguments GetAccountByHomeId {NaaReq}.
Arguments StorageGetTokenKeys {NaaReq}.
Arguments StorageGetAccessToken {NaaReq}.
Arguments StorageGetIdToken {NaaReq}.
Arguments StorageRemoveAccountContext {NaaReq}.
Arguments StorageSetAccount {NaaReq}.
Arguments StorageHydrateCache {NaaReq}.
Arguments StorageSetActiveAccount {NaaReq}.

(** ** Collaborator interfaces *)

(** [ICrypto.createNewGuid]: the [n]-th identifier the generator hands out.
    A GUID is never the empty string. *)
Module browserCrypto.
Class ICrypto := {
  createNewGuid : nat → string;
  createNewGuid_nonempty : ∀ n, createNewGuid n ≠ "" }.
End browserCrypto.

(** [BrowserCacheManager] and [AccountManager.getAccountByHomeId], over a
    storage state [Store].  Reads are functions of the state; writes return the
    new state; the asynchronous [hydrateCache] may reject, and leaves
    whatever state it reached. *)
Module browserStorage.
Class BrowserCacheManager (Store : Type) := {
  getAccountByHomeId : string → Store → option AccountInfo.t;
  getTokenKeys : Store → TokenKeys.t;
  getAccessToken : AccountInfo.t → BaseAuthRequest.t → TokenKeys.t →
                   string → Store → option AccessTokenEntity.t;
  getIdToken : AccountInfo.t → TokenKeys.t → string → Store →
               option IdTokenEntity.t;
  removeAccountContext : AccountEntity.t → Store → Store;
  setAccount : AccountEntity.t → Store → Store;
  setActiveAccount : option AccountInfo.t → Store → Store;
  getActiveAccount : Store → option AccountInfo.t;
  hydrateCache : AuthenticationResult.t → Request.t → Store →
                 Store * option JsError }.
End browserStorage.

(** [IBridgeProxy], over a host state [Host], with request type [NaaReq] and
    response type [NaaResp]. *)
Module bridgeProxy.
Class IBridgeProxy (Host NaaReq NaaResp : Type) := {
  getAccountContext : Host → string;
  getTokenInteractive : NaaReq → Host → (JsError + NaaResp) * Host;
  getTokenSilent : NaaReq → Host → (JsError + NaaResp) * Host }.
End bridgeProxy.

(** [NestedAppAuthAdapter].  The two conversions may throw;
    [fromBridgeError] and [fromCachedTokens] are pure. *)
Module nestedAppAuthAdapter.
Class NestedAppAuthAdapter (NaaReq NaaResp : Type) := {
  toNaaTokenRequest : Request.t → JsError + NaaReq;
  fromNaaTokenResponse : NaaReq → NaaResp → Z →
                         JsError + AuthenticationResult.t;
  fromBridgeError : JsError → JsError;
  fromCachedTokens : AccountInfo.t → IdTokenEntity.t → AccessTokenEntity.t →
                     BaseAuthRequest.t → string → AuthenticationResult.t }.
End nestedAppAuthAdapter.

(** ** The world and the monad *)

Record World (Store Host NaaReq : Type) := mkWorld {
  store : Store;
  host : Host;
  guids : nat;
  clock : Z;
  trace : list (Call NaaReq) }.

Arguments mkWorld {Store Host NaaReq}.
Arguments store {Store Host NaaReq}.
Arguments host {Store Host NaaReq}.
Arguments guids {Store Host NaaReq}.
Arguments clock {Store Host NaaReq}.
Arguments trace {Store Host NaaReq}.

Inductive Outcome (A : Type) :=
  | Returned (a : A)
  | Threw (e : JsError).

Arguments Returned {A}.
Arguments Threw {A}.

Definition M (W A : Type) : Type := W → Outcome A * W.

Definition ret {W A} (a : A) : M W A := fun w => (Returned a, w).

Definition throw {W A} (e : JsError) : M W A := fun w => (Threw e, w).

Definition bind {W A B} (m : M W A) (k : A → M W B) : M W B :=
  fun w => match m w with
           | (Returned a, w') => k a w'
           | (Threw e, w') => (Threw e, w')
           end.

Definition tryCatch {W A} (body : M W A) (handler : JsError → M W A) : M W A :=
  fun w => match body w with
           | (Returned a, w') => (Returned a, w')
           | (Threw e, w') => handler e w'
           end.

Declare Scope js_scope.
Delimit Scope js_scope with js.
Notation "x <- m ;; k" := (bind m (fun x => k))
  (at level 100, m at next level, right associativity) : js_scope.
Notation "m ;; k" := (bind m (fun _ => k))
  (at level 100, right associativity) : js_scope.
Open Scope js_scope.

(** JavaScript's [a || b] on an optional string: the empty string is falsy. *)
Definition truthy (s : option string) : option string :=
  match s with
  | Some c => if String.eqb c "" then None else Some c
  | None => None
  end.

Definition orElse (a : option string) (b : string) : string :=
  match truthy a with Some c => c | None => b end.

Arguments truthy : simpl never.
Arguments orElse : simpl never.

(** [a || b] on an optional object: every object is truthy. *)
Definition orAccount (a b : option AccountInfo.t) : option AccountInfo.t :=
  match a with Some x => Some x | None => b end.

Section Controller.
Context {Store Host NaaReq NaaResp : Type}.
Context `{Crypto : browserCrypto.ICrypto}.
Context `{Storage : browserStorage.BrowserCacheManager Store}.
Context `{Bridge : bridgeProxy.IBridgeProxy Host NaaReq NaaResp}.
Context `{Adapter : nestedAppAuthAdapter.NestedAppAuthAdapter NaaReq NaaResp}.
Variable config : BrowserConfiguration.t.

Local Abbreviation W := (World Store Host NaaReq).
Local Abbreviation JS := (M W).

(** *** Collaborator calls, each recorded in the trace *)

Definition record (c : Call NaaReq) (w : W) : W :=
  mkWorld (store w) (host w) (guids w) (clock w) (trace w ++ [c]).

Definition call (c : Call NaaReq) : JS unit := fun w =>
  (Returned tt, record c w).

Definition logger_verbose (m : string) : JS unit := call (LoggerVerbose m).
Definition logger_error (m : string) : JS unit := call (LoggerError m).

Definition createNewGuid : JS string := fun w =>
  let g := browserCrypto.createNewGuid (guids w) in
  (Returned g,
   mkWorld (store w) (host w) (Datatypes.S (guids w)) (clock w)
           (trace w ++ [CryptoCreateNewGuid g])).

Definition emitEvent (t : EventType) (i : InteractionType)
    (p : EventPayload) (e : option JsError) : JS unit :=
  call (EmitEvent t i p e).

Definition startMeasurement (n : PerformanceEvents) (c : option string)
    : JS unit :=
  call (StartMeasurement n c).
Definition measurement_add (n : PerformanceEvents) (f : list PerfField)
    : JS unit :=
  call (MeasurementAdd n f).
Definition measurement_increment (n : PerformanceEvents)
    (f : list PerfField) : JS unit :=
  call (MeasurementIncrement n f).
Definition measurement_end (n : PerformanceEvents) (f : list PerfField)
    (e : option JsError) : JS unit :=
  call (MeasurementEnd n f e).

Definition nowSeconds : JS Z := fun w => (Returned (clock w), w).

Definition readStore {A} (c : Call NaaReq) (f : Store → A) : JS A := fun w =>
  (Returned (f (store w)), record c w).

Definition writeStore (c : Call NaaReq) (f : Store → Store) : JS unit :=
  fun w =>
  (Returned tt,
   mkWorld (f (store w)) (host w) (guids w) (clock w) (trace w ++ [c])).

Definition bridge_getAccountContext : JS string := fun w =>
  (Returned (bridgeProxy.getAccountContext (host w)),
   record BridgeGetAccountContext w).

Definition callBridge (c : Call NaaReq)
    (f : Host → (JsError + NaaResp) * Host) : JS NaaResp := fun w =>
  let '(r, h) := f (host w) in
  let w' := mkWorld (store w) h (guids w) (clock w) (trace w ++ [c]) in
  match r with
  | inr response => (Returned response, w')
  | inl e => (Threw e, w')
  end.

Definition bridge_getTokenSilent (naaRequest : NaaReq) : JS NaaResp :=
  callBridge (BridgeGetTokenSilent naaRequest)
             (bridgeProxy.getTokenSilent naaRequest).

Definition bridge_getTokenInteractive (naaRequest : NaaReq) : JS NaaResp :=
  callBridge (BridgeGetTokenInteractive naaRequest)
             (bridgeProxy.getTokenInteractive naaRequest).

Definition liftThrowing {A} (r : JsError + A) : JS A :=
  match r with
  | inr a => ret a
  | inl e => throw e
  end.

Definition storage_hydrateCache (result : AuthenticationResult.t)
    (request : Request.t) : JS unit := fun w =>
  let '(s, r) := browserStorage.hydrateCache result request (store w) in
  let w' := mkWorld s (host w) (guids w) (clock w)
                    (trace w ++ [StorageHydrateCache result request]) in
  match r with
  | None => (Returned tt, w')
  | Some e => (Threw e, w')
  end.

Definition storage_setActiveAccount (account : option AccountInfo.t)
    : JS unit :=
  writeStore (StorageSetActiveAccount account)
             (browserStorage.setActiveAccount account).

(** *** The controller *)

(** [ensureValidRequest], lines 172-186. *)
Definition ensureValidRequest (request : Request.t) : JS Request.t :=
  match truthy (Request.correlationId request) with
  | Some _ => ret request
  | None =>
      guid <- createNewGuid ;;
      ret (Request.withCorrelationId request guid)
  end.

(** [hydrateCache], lines 808-826. *)
Definition hydrateCache (result : AuthenticationResult.t)
    (request : Request.t) : JS unit :=
  logger_verbose "hydrateCache called" ;;
  let accountEntity :=
    AccountEntity.createFromAccountInfo
      (AuthenticationResult.account result)
      (AuthenticationResult.cloudGraphHostName result)
      (AuthenticationResult.msGraphHost result) in
  writeStore (StorageSetAccount accountEntity)
             (browserStorage.setAccount accountEntity) ;;
  storage_hydrateCache result request.

(** [acquireTokenInteractive], lines 193-264. *)
Definition acquireTokenInteractive (request : Request.t)
    : JS AuthenticationResult.t :=
  validRequest <- ensureValidRequest request ;;
  emitEvent ACQUIRE_TOKEN_START Popup (PayloadRequest validRequest) None ;;
  startMeasurement AcquireTokenPopup (Request.correlationId validRequest) ;;
  measurement_add AcquireTokenPopup [nestedAppAuthRequest true] ;;
  tryCatch
    (naaRequest <- liftThrowing
                     (nestedAppAuthAdapter.toNaaTokenRequest validRequest) ;;
     reqTimestamp <- nowSeconds ;;
     response <- bridge_getTokenInteractive naaRequest ;;
     result <- liftThrowing
                 (nestedAppAuthAdapter.fromNaaTokenResponse
                    naaRequest response reqTimestamp) ;;
     hydrateCache result request ;;
     storage_setActiveAccount (Some (AuthenticationResult.account result)) ;;
     emitEvent ACQUIRE_TOKEN_SUCCESS Popup (PayloadResult result) None ;;
     measurement_add AcquireTokenPopup
       [accessTokenSize (String.length (AuthenticationResult.accessToken result));
        idTokenSize (String.length (AuthenticationResult.idToken result))] ;;
     measurement_end AcquireTokenPopup
       [success true; requestId (AuthenticationResult.requestId result)]
       None ;;
     ret result)
    (fun e =>
       let error := nestedAppAuthAdapter.fromBridgeError e in
       emitEvent ACQUIRE_TOKEN_FAILURE Popup PayloadNull (Some e) ;;
       measurement_end AcquireTokenPopup [success false] (Some e) ;;
       throw error).

(** The object literal of lines 431-439. *)
Definition buildAuthRequest (request : Request.t)
    (currentAccount : AccountInfo.t) (correlationId : string)
    : BaseAuthRequest.t :=
  BaseAuthRequest.mk
    correlationId
    (orElse (Request.authority request)
            (AccountInfo.environment currentAccount))
    (match Request.scopes request with
     | Some (s :: l) => s :: l
     | _ => OIDC_DEFAULT_SCOPES
     end)
    (Request.account request)
    (Request.claims request).

(** [acquireTokenFromCacheInternal], lines 412-493.  The host's account
    context and the removal of an account context are as the spec gives
    them, "getAccountContext() -> {homeAccountId}" and a removal that
    completes: the runs described are those in which the lookup returns. *)
Definition acquireTokenFromCacheInternal (request : Request.t)
    : JS (option AuthenticationResult.t) :=
  homeAccountId <- bridge_getAccountContext ;;
  cachedAccount <- readStore (GetAccountByHomeId homeAccountId)
                     (browserStorage.getAccountByHomeId homeAccountId) ;;
  match orAccount (Request.account request) cachedAccount with
  | None =>
      logger_verbose "No active account found, falling back to the host" ;;
      ret None
  | Some currentAccount =>
      logger_verbose
        "active account found, attempting to acquire token silently" ;;
      correlationId <- match truthy (Request.correlationId request) with
                       | Some c => ret c
                       | None => createNewGuid
                       end ;;
      let authRequest :=
        buildAuthRequest request currentAccount correlationId in
      tokenKeys <- readStore StorageGetTokenKeys browserStorage.getTokenKeys ;;
      cachedAccessToken <-
        readStore
          (StorageGetAccessToken currentAccount authRequest
             (AccountInfo.tenantId currentAccount))
          (browserStorage.getAccessToken currentAccount authRequest tokenKeys
             (AccountInfo.tenantId currentAccount)) ;;
      match cachedAccessToken with
      | None =>
          logger_verbose "No cached access token found" ;;
          ret None
      | Some cachedAccessToken =>
          now <- nowSeconds ;;
          if TimeUtils.wasClockTurnedBack now
               (AccessTokenEntity.cachedAt cachedAccessToken)
             || TimeUtils.isTokenExpired now
                  (AccessTokenEntity.expiresOn cachedAccessToken)
                  (BrowserConfiguration.tokenRenewalOffsetSeconds config)
          then
            logger_verbose
              "Cached access token has expired, deleting all related tokens from cache" ;;
            let accountEntity :=
              AccountEntity.createFromAccountInfo currentAccount None None in
            writeStore (StorageRemoveAccountContext accountEntity)
                       (browserStorage.removeAccountContext accountEntity) ;;
            ret None
          else
            cachedIdToken <-
              readStore
                (StorageGetIdToken currentAccount
                   (AccountInfo.tenantId currentAccount))
                (browserStorage.getIdToken currentAccount tokenKeys
                   (AccountInfo.tenantId currentAccount)) ;;
            match cachedIdToken with
            | None =>
                logger_verbose "No cached id token found" ;;
                ret None
            | Some cachedIdToken =>
                ret (Some (nestedAppAuthAdapter.fromCachedTokens
                             currentAccount cachedIdToken cachedAccessToken
                             authRequest
                             (BaseAuthRequest.correlationId authRequest)))
            end
      end
  end.

(** [acquireTokenFromCache], lines 361-405. *)
Definition acquireTokenFromCache (request : Request.t)
    : JS (option AuthenticationResult.t) :=
  startMeasurement AcquireTokenSilent (Request.correlationId request) ;;
  measurement_add AcquireTokenSilent [nestedAppAuthRequest true] ;;
  result <- acquireTokenFromCacheInternal request ;;
  match result with
  | Some result =>
      emitEvent ACQUIRE_TOKEN_SUCCESS Silent (PayloadResult result) None ;;
      measurement_add AcquireTokenSilent
        [accessTokenSize (String.length (AuthenticationResult.accessToken result));
         idTokenSize (String.length (AuthenticationResult.idToken result))] ;;
      measurement_end AcquireTokenSilent [success true] None ;;
      ret (Some result)
  | None =>
      logger_error
        "Cached tokens are not found for the account, proceeding with silent token request." ;;
      emitEvent ACQUIRE_TOKEN_FAILURE Silent PayloadNull None ;;
      measurement_end AcquireTokenSilent [success false] None ;;
      ret None
  end.

(** [acquireTokenSilentInternal], lines 271-354. *)
Definition acquireTokenSilentInternal (request : Request.t)
    : JS AuthenticationResult.t :=
  validRequest <- ensureValidRequest request ;;
  emitEvent ACQUIRE_TOKEN_START Silent (PayloadRequest validRequest) None ;;
  result <- acquireTokenFromCache validRequest ;;
  match result with
  | Some result =>
      emitEvent ACQUIRE_TOKEN_SUCCESS Silent (PayloadResult result) None ;;
      ret result
  | None =>
      startMeasurement SsoSilent (Request.correlationId validRequest) ;;
      measurement_increment SsoSilent [visibilityChangeCount 0] ;;
      measurement_add SsoSilent [nestedAppAuthRequest true] ;;
      tryCatch
        (naaRequest <- liftThrowing
                         (nestedAppAuthAdapter.toNaaTokenRequest validRequest) ;;
         reqTimestamp <- nowSeconds ;;
         response <- bridge_getTokenSilent naaRequest ;;
         result <- liftThrowing
                     (nestedAppAuthAdapter.fromNaaTokenResponse
                        naaRequest response reqTimestamp) ;;
         hydrateCache result request ;;
         storage_setActiveAccount
           (Some (AuthenticationResult.account result)) ;;
         emitEvent ACQUIRE_TOKEN_SUCCESS Silent (PayloadResult result) None ;;
         measurement_add SsoSilent
           [accessTokenSize (String.length (AuthenticationResult.accessToken result));
            idTokenSize (String.length (AuthenticationResult.idToken result))] ;;
         measurement_end SsoSilent
           [success true; requestId (AuthenticationResult.requestId result)]
           None ;;
         ret result)
        (fun e =>
           let error := nestedAppAuthAdapter.fromBridgeError e in
           emitEvent ACQUIRE_TOKEN_FAILURE Silent PayloadNull (Some e) ;;
           measurement_end SsoSilent [success false] (Some e) ;;
           throw error)
  end.

(** Public entry points that wrap the two flows. *)
Definition acquireTokenPopup (request : Request.t)
    : JS AuthenticationResult.t :=
  acquireTokenInteractive request.

Definition acquireTokenSilent (silentRequest : Request.t)
    : JS AuthenticationResult.t :=
  acquireTokenSilentInternal silentRequest.

Definition ssoSilent (request : Request.t) : JS AuthenticationResult.t :=
  acquireTokenSilentInternal request.

(** Operations that nested app auth does not support: each body is the
    single statement [throw NestedAppAuthError.createUnsupportedError()]. *)
Definition acquireTokenRedirect {A} (request : A) : JS unit :=
  throw createUnsupportedError.
Definition acquireTokenByCode {A} (request : A) : JS AuthenticationResult.t :=
  throw createUnsupportedError.
Definition acquireTokenNative {A B} (request : A) (apiId : B)
    (accountId : option string) : JS AuthenticationResult.t :=
  throw createUnsupportedError.
Definition acquireTokenByRefreshToken {A B} (commonRequest : A)
    (silentRequest : B) : JS AuthenticationResult.t :=
  throw createUnsupportedError.
Definition addPerformanceCallback {A} (callback : A) : JS string :=
  throw createUnsupportedError.
Definition removePerformanceCallback (callbackId : string) : JS bool :=
  throw createUnsupportedError.
Definition enableAccountStorageEvents : JS unit :=
  throw createUnsupportedError.
Definition disableAccountStorageEvents : JS unit :=
  throw createUnsupportedError.
Definition loginRedirect {A} (request : option A) : JS unit :=
  throw createUnsupportedError.
Definition logout {A} (logoutRequest : option A) : JS unit :=
  throw createUnsupportedError.
Definition logoutRedirect {A} (logoutRequest : option A) : JS unit :=
  throw createUnsupportedError.
Definition logoutPopup {A} (logoutRequest : option A) : JS unit :=
  throw createUnsupportedError.
Definition getTokenCache : JS unit :=
  throw createUnsupportedError.
Definition getPerformanceClient : JS unit :=
  throw createUnsupportedError.
Definition getRedirectResponse : JS unit :=
  throw createUnsupportedError.
Definition clearCache {A} (logoutRequest : option A) : JS unit :=
  throw createUnsupportedError.

End Controller.

Arguments buildAuthRequest : simpl never.

(** ** What an observer sees of a run *)

(** Classification of trace entries. *)
Definition isBridgeTokenCall {NaaReq} (c : Call NaaReq) : bool :=
  match c with
  | BridgeGetTokenSilent _ | BridgeGetTokenInteractive _ => true
  | _ => false
  end.

Definition isHydrationCall {NaaReq} (c : Call NaaReq) : bool :=
  match c with
  | StorageSetAccount _ | StorageHydrateCache _ _
  | StorageSetActiveAccount _ => true
  | _ => false
  end.

Definition isStorageWrite {NaaReq} (c : Call NaaReq) : bool :=
  match c with
  | StorageRemoveAccountContext _ => true
  | _ => isHydrationCall c
  end.

Definition isTokenStorageCall {NaaReq} (c : Call NaaReq) : bool :=
  match c with
  | StorageGetTokenKeys | StorageGetAccessToken _ _ _
  | StorageGetIdToken _ _ | StorageRemoveAccountContext _ => true
  | _ => false
  end.

Definition isSetActiveAccount {NaaReq} (c : Call NaaReq) : bool :=
  match c with
  | StorageSetActiveAccount _ => true
  | _ => false
  end.

Definition isGuidCall {NaaReq} (c : Call NaaReq) : bool :=
  match c with
  | CryptoCreateNewGuid _ => true
  | _ => false
  end.

Record EventMessage := mkEvent {
  eventType : EventType;
  interactionType : InteractionType;
  payload : EventPayload;
  error : option JsError }.

(** The events of a trace, in emission order. *)
Definition events {NaaReq} (calls : list (Call NaaReq)) : list EventMessage :=
  omap (fun c => match c with
                 | EmitEvent t i p e => Some (mkEvent t i p e)
                 | _ => None
                 end) calls.

(** The correlation identifier an event carries in its payload. *)
Definition eventCorrelationId (e : EventMessage) : option string :=
  match payload e with
  | PayloadRequest request => Request.correlationId request
  | PayloadResult result => Some (AuthenticationResult.correlationId result)
  | PayloadNull => None
  end.

Section Observations.
Context {Store Host NaaReq NaaResp : Type}.
Context `{Crypto : browserCrypto.ICrypto}.
Context `{Storage : browserStorage.BrowserCacheManager Store}.
Context `{Bridge : bridgeProxy.IBridgeProxy Host NaaReq NaaResp}.

(** The identifier under which an operation started in [w] on [request]
    runs: the caller's, or the next GUID. *)
Definition operationCorrelationId (request : Request.t)
    (w : World Store Host NaaReq) : string :=
  orElse (Request.correlationId request)
         (browserCrypto.createNewGuid (guids w)).

(** The request [ensureValidRequest] returns in [w]. *)
Definition validRequest (request : Request.t) (w : World Store Host NaaReq)
    : Request.t :=
  match truthy (Request.correlationId request) with
  | Some _ => request
  | None =>
      Request.withCorrelationId request (browserCrypto.createNewGuid (guids w))
  end.

(** The account the cache lookup consults in [w]. *)
Definition resolveAccount (request : Request.t) (w : World Store Host NaaReq)
    : option AccountInfo.t :=
  orAccount (Request.account request)
    (browserStorage.getAccountByHomeId
       (bridgeProxy.getAccountContext (host w)) (store w)).

(** The observable cache state: stored accounts and tokens, active account. *)
Definition cacheState (w : World Store Host NaaReq) : Store := store w.

End Observations.

Section BridgeStep.
Context {Store Host NaaReq NaaResp : Type}.
Context `{Storage : browserStorage.BrowserCacheManager Store}.
Context `{Adapter : nestedAppAuthAdapter.NestedAppAuthAdapter NaaReq NaaResp}.

(** The ways the body of the [try] block (lines 211-245 and 307-337) can
    fail, run with the bridge call [getToken] from storage [s], host [h]
    and clock [now]: [BridgeStepFailure ... e s'] says that the block
    raises [e] and leaves the storage [s']. *)
Inductive BridgeStepFailure
    (getToken : NaaReq → Host → (JsError + NaaResp) * Host)
    (request validRequest : Request.t) (s : Store) (h : Host) (now : Z)
    : JsError → Store → Prop :=
  | RequestConversionFails e :
      nestedAppAuthAdapter.toNaaTokenRequest validRequest = inl e →
      BridgeStepFailure getToken request validRequest s h now e s
  | BridgeCallFails naaRequest e :
      nestedAppAuthAdapter.toNaaTokenRequest validRequest = inr naaRequest →
      fst (getToken naaRequest h) = inl e →
      BridgeStepFailure getToken request validRequest s h now e s
  | ResponseConversionFails naaRequest response e :
      nestedAppAuthAdapter.toNaaTokenRequest validRequest = inr naaRequest →
      fst (getToken naaRequest h) = inr response →
      nestedAppAuthAdapter.fromNaaTokenResponse naaRequest response now
        = inl e →
      BridgeStepFailure getToken request validRequest s h now e s
  | HydrationFails naaRequest response result e s' :
      nestedAppAuthAdapter.toNaaTokenRequest validRequest = inr naaRequest →
      fst (getToken naaRequest h) = inr response →
      nestedAppAuthAdapter.fromNaaTokenResponse naaRequest response now
        = inr result →
      browserStorage.hydrateCache result request
        (browserStorage.setAccount
           (AccountEntity.createFromAccountInfo
              (AuthenticationResult.account result)
              (AuthenticationResult.cloudGraphHostName result)
              (AuthenticationResult.msGraphHost result)) s)
        = (s', Some e) →
      BridgeStepFailure getToken request validRequest s h now e s'.

End BridgeStep.

Section Hydration.
Context {Store Host NaaReq NaaResp : Type}.
Context `{Storage : browserStorage.BrowserCacheManager Store}.
Context `{Adapter : nestedAppAuthAdapter.NestedAppAuthAdapter NaaReq NaaResp}.

(** Hydration as both flows perform it (lines 226-228 and 321-323):
    [await this.hydrateCache(result, request)] followed by
    [this.browserStorage.setActiveAccount(result.account)]. *)
Definition hydrateAndActivate (result : AuthenticationResult.t)
    (request : Request.t) : M (World Store Host NaaReq) unit :=
  hydrateCache result request ;;
  storage_setActiveAccount (Some (AuthenticationResult.account result)).

(** Modelled from the spec: the adapter is not under src/.  The results it
    builds carry the correlation identifier of the request they answer
    ("AuthenticationResult: ... request correlation identifier"). *)
Record CopiesCorrelationId : Prop := {
  fromCachedTokens_correlationId : ∀ account idToken accessToken request c,
    AuthenticationResult.correlationId
      (nestedAppAuthAdapter.fromCachedTokens
         account idToken accessToken request c) = c;
  fromNaaTokenResponse_correlationId :
    ∀ request (naaRequest : NaaReq) (response : NaaResp) reqTimestamp result c,
    nestedAppAuthAdapter.toNaaTokenRequest request = inr naaRequest →
    nestedAppAuthAdapter.fromNaaTokenResponse naaRequest response reqTimestamp
      = inr result →
    truthy (Request.correlationId request) = Some c →
    AuthenticationResult.correlationId result = c }.

(** How a call of an operation that runs under the identifier [g], on the
    valid request [v] and with outcome [o], relates to them. *)
Definition usesCorrelationId (g : string) (v : Request.t)
    (o : Outcome AuthenticationResult.t) (c : Call NaaReq) : Prop :=
  match c with
  | CryptoCreateNewGuid g' => g' = g
  | EmitEvent ACQUIRE_TOKEN_START _ p _ => p = PayloadRequest v
  | EmitEvent ACQUIRE_TOKEN_SUCCESS _ p _ =>
      ∃ r, p = PayloadResult r ∧ o = Returned r
  | EmitEvent ACQUIRE_TOKEN_FAILURE _ p _ => p = PayloadNull
  | StartMeasurement _ id => id = Some g
  | StorageGetAccessToken _ a _ => BaseAuthRequest.correlationId a = g
  | BridgeGetTokenSilent n | BridgeGetTokenInteractive n =>
      nestedAppAuthAdapter.toNaaTokenRequest v = inr n
  | _ => True
  end.

End Hydration.

(** ** Reference collaborators

    A small in-memory implementation of the interfaces, used to run the
    controller on concrete inputs. *)
Module Reference.

(** Modelled from the spec: [BrowserCacheManager] is not under src/.
    Accounts and credentials are keyed by home account identifier; the
    backing store accepts [capacity] access tokens and rejects a write
    beyond that; [stamp] is the storage's own reading of the system clock,
    the "cached-at timestamp" it puts on the access tokens it caches. *)
Record Store := mkStore {
  accounts : gmap string AccountEntity.t;
  accessTokens : gmap string AccessTokenEntity.t;
  idTokens : gmap string IdTokenEntity.t;
  activeAccount : option AccountInfo.t;
  capacity : nat;
  stamp : Z }.

Definition getAccountByHomeId (homeAccountId : string) (s : Store)
    : option AccountInfo.t :=
  AccountEntity.info <$> accounts s !! homeAccountId.

Definition getTokenKeys (s : Store) : TokenKeys.t :=
  TokenKeys.mk (fst <$> map_to_list (idTokens s))
               (fst <$> map_to_list (accessTokens s)) [].

Definition coversScopes (target wanted : list string) : bool :=
  forallb (fun s => existsb (String.eqb s) target) wanted.

Definition getAccessToken (account : AccountInfo.t)
    (request : BaseAuthRequest.t) (keys : TokenKeys.t) (tenantId : string)
    (s : Store) : option AccessTokenEntity.t :=
  match accessTokens s !! AccountInfo.homeAccountId account with
  | Some token =>
      if String.eqb (AccessTokenEntity.realm token) tenantId
         && coversScopes (AccessTokenEntity.target token)
                         (BaseAuthRequest.scopes request)
      then Some token else None
  | None => None
  end.

Definition getIdToken (account : AccountInfo.t) (keys : TokenKeys.t)
    (tenantId : string) (s : Store) : option IdTokenEntity.t :=
  match idTokens s !! AccountInfo.homeAccountId account with
  | Some token =>
      if String.eqb (IdTokenEntity.realm token) tenantId
      then Some token else None
  | None => None
  end.

Definition removeAccountContext (entity : AccountEntity.t) (s : Store)
    : Store :=
  let id := AccountInfo.homeAccountId (AccountEntity.info entity) in
  mkStore (delete id (accounts s)) (delete id (accessTokens s))
          (delete id (idTokens s)) (activeAccount s) (capacity s) (stamp s).

Definition setAccount (entity : AccountEntity.t) (s : Store) : Store :=
  let id := AccountInfo.homeAccountId (AccountEntity.info entity) in
  mkStore (<[id := entity]> (accounts s)) (accessTokens s) (idTokens s)
          (activeAccount s) (capacity s) (stamp s).

Definition setActiveAccount (account : option AccountInfo.t) (s : Store)
    : Store :=
  mkStore (accounts s) (accessTokens s) (idTokens s) account
          (capacity s) (stamp s).

Definition hasRoom (id : string) (s : Store) : bool :=
  match accessTokens s !! id with
  | Some _ => true
  | None => (size (accessTokens s) <? capacity s)%nat
  end.

Definition hydrateCache (result : AuthenticationResult.t)
    (request : Request.t) (s : Store) : Store * option JsError :=
  let account := AuthenticationResult.account result in
  let id := AccountInfo.homeAccountId account in
  if hasRoom id s then
    (mkStore (accounts s)
       (<[id := AccessTokenEntity.mk id (AccountInfo.tenantId account)
                  (AuthenticationResult.scopes result)
                  (AuthenticationResult.accessToken result)
                  (stamp s)
                  (AuthenticationResult.expiresOn result)]> (accessTokens s))
       (<[id := IdTokenEntity.mk id (AccountInfo.tenantId account)
                  (AuthenticationResult.idToken result)]> (idTokens s))
       (activeAccount s) (capacity s) (stamp s),
     None)
  else
    (s, Some (AuthError "cache_quota_exceeded"
                        "Exceeded cache storage capacity."))%string.

Definition storage : browserStorage.BrowserCacheManager Store := {|
  browserStorage.getAccountByHomeId := getAccountByHomeId;
  browserStorage.getTokenKeys := getTokenKeys;
  browserStorage.getAccessToken := getAccessToken;
  browserStorage.getIdToken := getIdToken;
  browserStorage.removeAccountContext := removeAccountContext;
  browserStorage.setAccount := setAccount;
  browserStorage.setActiveAccount := setActiveAccount;
  browserStorage.getActiveAccount := activeAccount;
  browserStorage.hydrateCache := hydrateCache |}.

(** Modelled from the spec: the host bridge is an external collaborator.
    This host answers every token request with a scripted reply. *)
Record TokenRequest := mkTokenRequest {
  naaScope : list string;
  naaCorrelationId : string;
  naaAuthority : option string;
  naaAccountId : option string }.

Record TokenResponse := mkTokenResponse {
  naaAccount : AccountInfo.t;
  access_token : string;
  id_token : string;
  expires_in : Z;
  scope : list string }.

Record Host := mkHost {
  contextHomeAccountId : string;
  silentReply : JsError + TokenResponse;
  interactiveReply : JsError + TokenResponse }.

Definition bridge
    : bridgeProxy.IBridgeProxy Host TokenRequest TokenResponse := {|
  bridgeProxy.getAccountContext := contextHomeAccountId;
  bridgeProxy.getTokenInteractive := fun _ h => (interactiveReply h, h);
  bridgeProxy.getTokenSilent := fun _ h => (silentReply h, h) |}.

(** Modelled from the spec: [NestedAppAuthAdapter] is not under src/. *)
Definition toNaaTokenRequest (request : Request.t) : JsError + TokenRequest :=
  inr (mkTokenRequest
         (match Request.scopes request with
          | Some l => l
          | None => OIDC_DEFAULT_SCOPES
          end)
         (orElse (Request.correlationId request) "")
         (Request.authority request)
         (AccountInfo.homeAccountId <$> Request.account request)).

Definition fromNaaTokenResponse (request : TokenRequest)
    (response : TokenResponse) (reqTimestamp : Z)
    : JsError + AuthenticationResult.t :=
  if String.eqb (id_token response) "" || String.eqb (access_token response) ""
  then inl (AuthError "null_or_empty_token" "The token is null or empty.")
  else inr (AuthenticationResult.mk
              (naaAccount response) (access_token response)
              (id_token response) (scope response)
              (reqTimestamp + expires_in response)
              (naaCorrelationId request) None false None None).

Definition fromBridgeError (e : JsError) : JsError :=
  match e with
  | BridgeError status description => AuthError status description
  | _ => AuthError "unknown_error" "An unknown error occurred"
  end.

Definition fromCachedTokens (account : AccountInfo.t)
    (idToken : IdTokenEntity.t) (accessToken : AccessTokenEntity.t)
    (request : BaseAuthRequest.t) (correlationId : string)
    : AuthenticationResult.t :=
  AuthenticationResult.mk account
    (AccessTokenEntity.secret accessToken) (IdTokenEntity.secret idToken)
    (AccessTokenEntity.target accessToken)
    (AccessTokenEntity.expiresOn accessToken)
    correlationId None true None None.

Definition adapter
    : nestedAppAuthAdapter.NestedAppAuthAdapter TokenRequest TokenResponse := {|
  nestedAppAuthAdapter.toNaaTokenRequest := toNaaTokenRequest;
  nestedAppAuthAdapter.fromNaaTokenResponse := fromNaaTokenResponse;
  nestedAppAuthAdapter.fromBridgeError := fromBridgeError;
  nestedAppAuthAdapter.fromCachedTokens := fromCachedTokens |}.

(** The [n]-th GUID: a fixed prefix followed by [n] in decimal. *)
Definition createNewGuid (n : nat) : string :=
  "g-" +:+ pretty n.

Definition crypto : browserCrypto.ICrypto := {|
  browserCrypto.createNewGuid := createNewGuid;
  browserCrypto.createNewGuid_nonempty :=
    fun n => ltac:(unfold createNewGuid; simpl; discriminate) |}.

(** Concrete inputs. *)
Definition config : BrowserConfiguration.t :=
  BrowserConfiguration.mk "client-1" 300.

Definition alice : AccountInfo.t :=
  AccountInfo.mk "alice.home" "login.example.com" "tenant-1"
                 "alice@example.com" "alice.local".

Definition emptyStore : Store := mkStore ∅ ∅ ∅ None 4 1000.

Definition aliceAccessToken (expiresOn : Z) : AccessTokenEntity.t :=
  AccessTokenEntity.mk "alice.home" "tenant-1"
    ["openid"; "profile"; "offline_access"] "at-old" 900 expiresOn.

Definition aliceIdToken : IdTokenEntity.t :=
  IdTokenEntity.mk "alice.home" "tenant-1" "idt-old".

(** A store holding alice, her id token and an access token that expires
    at [expiresOn]. *)
Definition aliceStore (expiresOn : Z) : Store :=
  mkStore {[ "alice.home" := AccountEntity.mk alice None None ]}
          {[ "alice.home" := aliceAccessToken expiresOn ]}
          {[ "alice.home" := aliceIdToken ]}
          None 4 1000.

Definition freshTokens : TokenResponse :=
  mkTokenResponse alice "at-new" "idt-new" 3600 ["openid"; "profile"].

Definition hostFailure : JsError :=
  BridgeError "USER_CANCEL" "The user cancelled the request.".

(** A host that knows alice and grants every token request. *)
Definition grantingHost : Host :=
  mkHost "alice.home" (inr freshTokens) (inr freshTokens).

(** A host that knows nobody and refuses every token request. *)
Definition refusingHost : Host :=
  mkHost "" (inl hostFailure) (inl hostFailure).

Definition world (s : Store) (h : Host) : World Store Host TokenRequest :=
  mkWorld s h 0 1000 [].

(** A request that names neither account, identifier, authority nor scopes. *)
Definition bareRequest : Request.t := Request.mk None None None None None.

(** Worlds at time 1000: alice's cached access token is good until 5000,
    or expires at 1030, within the renewal offset of 300 seconds. *)
Definition cachedWorld : World Store Host TokenRequest :=
  world (aliceStore 5000) grantingHost.

Definition staleWorld : World Store Host TokenRequest :=
  world (aliceStore 1030) grantingHost.

Definition cachedResult : AuthenticationResult.t :=
  AuthenticationResult.mk alice "at-old" "idt-old"
    ["openid"; "profile"; "offline_access"] 5000 "g-0" None true None None.

Definition grantedResult : AuthenticationResult.t :=
  AuthenticationResult.mk alice "at-new" "idt-new" ["openid"; "profile"]
    4600 "g-0" None false None None.

(** [bareRequest] once [ensureValidRequest] has given it the first GUID. *)
Definition bareRequestValid : Request.t :=
  Request.mk (Some "g-0") None None None None.

(** A store whose backing storage accepts no credential. *)
Definition fullStore : Store := mkStore ∅ ∅ ∅ None 0 1000.

Definition unknownError : JsError :=
  AuthError "unknown_error" "An unknown error occurred".

Definition userCancelled : JsError :=
  AuthError "USER_CANCEL" "The user cancelled the request.".

(** The host grants tokens, the storage cannot keep them. *)
Definition fullWorld : World Store Host TokenRequest :=
  world fullStore grantingHost.

(** Nothing is cached and the host refuses. *)
Definition refusedWorld : World Store Host TokenRequest :=
  world emptyStore refusingHost.

Definition naaBareRequest : TokenRequest :=
  mkTokenRequest OIDC_DEFAULT_SCOPES "g-0" None None.

(** Modelled from the spec: the system clock is read by the controller
    ([clock]) and by the storage ([stamp]) alike.  [atTime t s] is the
    storage [s] when the system clock shows [t]; what is stored does not
    change. *)
Definition atTime (t : Z) (s : Store) : Store :=
  mkStore (accounts s) (accessTokens s) (idTokens s) (activeAccount s)
          (capacity s) t.

(** Time passing between two operations: the system clock moves to [t].
    This is a step of the environment, not a call of the controller, and
    leaves no entry in the trace. *)
Definition elapse {Host NaaReq : Type} (t : Z)
    : M (World Store Host NaaReq) unit :=
  fun w =>
    (Returned tt,
     mkWorld (atTime t (store w)) (host w) (guids w) t (trace w)).

(** What a reader of the storage observes: the active account, the
    accounts and the tokens. *)
Definition observable (s : Store)
    : option AccountInfo.t * gmap string AccountEntity.t
      * gmap string AccessTokenEntity.t * gmap string IdTokenEntity.t :=
  (activeAccount s, accounts s, accessTokens s, idTokens s).

(** An access token with its cached-at timestamp replaced by [t]. *)
Definition restamp (t : Z) (token : AccessTokenEntity.t)
    : AccessTokenEntity.t :=
  AccessTokenEntity.mk
    (AccessTokenEntity.homeAccountId token) (AccessTokenEntity.realm token)
    (AccessTokenEntity.target token) (AccessTokenEntity.secret token)
    t (AccessTokenEntity.expiresOn token).

End Reference.

(** ** The Teams app operating context

    A shallow embedding of
    [lib/msal-browser/src/operatingcontext/TeamsAppOperatingContext.ts].
    The fields [available] and [logger] and the configuration come from
    [BaseOperatingContext], whose code is not part of the file: the flag is
    a field of the state, the two log lines are entries of the call trace,
    and [getConfig().auth.supportsNestedAppAuth] and
    [typeof window !== "undefined"] are arguments of [initialize]. *)
Module TeamsAppOperatingContext.

(** Modelled from the spec: the host capabilities are declared outside
    src/; "getHostCapabilities() -> {queryAccount: bool, ...}". *)
Record BridgeCapabilities := mkCapabilities { queryAccount : bool }.

(** The part of [BridgeProxy] that [initialize] uses, over an environment
    [Env], proxies [P] and accounts [A]: the static [create] and the
    asynchronous [getActiveAccount] may reject; [getHostCapabilities] may
    throw or return nothing. *)
Module BridgeProxy.
Class t (Env P A : Type) := {
  create : Env → (JsError + P) * Env;
  getHostCapabilities : P → Env → JsError + option BridgeCapabilities;
  getActiveAccount : P → Env → (JsError + option A) * Env }.
End BridgeProxy.

Inductive Call :=
  | BridgeProxyCreate
  | GetHostCapabilities
  | GetActiveAccount
  | LoggerInfoPii (ex : JsError)
  | LoggerInfo (available : bool).

Record t (Env P A : Type) := mk {
  bridgeProxy : option P;
  activeAccount : option A;
  available : bool;
  env : Env;
  calls : list Call }.

Arguments mk {Env P A}.
Arguments bridgeProxy {Env P A}.
Arguments activeAccount {Env P A}.
Arguments available {Env P A}.
Arguments env {Env P A}.
Arguments calls {Env P A}.

Section Methods.
Context {Env P A : Type}.
Context `{Proxy : BridgeProxy.t Env P A}.
Variable supportsNestedAppAuth : bool.
Variable windowDefined : bool.

Local Abbreviation OC := (M (t Env P A)).

Definition ID : string := "TeamsAppOperatingContext".

Definition getId : string := ID.

Definition getBridgeProxy (this : t Env P A) : option P := bridgeProxy this.

Definition getActiveAccount (this : t Env P A) : option A :=
  activeAccount this.

Definition assignActiveAccount (account : option A) : OC unit := fun this =>
  (Returned tt,
   mk (bridgeProxy this) account (available this) (env this) (calls this)).

Definition setActiveAccount (account : A) : OC unit :=
  assignActiveAccount (Some account).

Definition assignBridgeProxy (proxy : P) : OC unit := fun this =>
  (Returned tt,
   mk (Some proxy) (activeAccount this) (available this) (env this)
      (calls this)).

Definition assignAvailable (b : bool) : OC unit := fun this =>
  (Returned tt,
   mk (bridgeProxy this) (activeAccount this) b (env this) (calls this)).

Definition readAvailable : OC bool := fun this =>
  (Returned (available this), this).

Definition note (c : Call) : OC unit := fun this =>
  (Returned tt,
   mk (bridgeProxy this) (activeAccount this) (available this) (env this)
      (calls this ++ [c])).

Definition onEnv {B} (c : Call) (f : Env → (JsError + B) * Env) : OC B :=
  fun this =>
    let '(r, e) := f (env this) in
    let this' := mk (bridgeProxy this) (activeAccount this) (available this)
                    e (calls this ++ [c]) in
    match r with
    | inr b => (Returned b, this')
    | inl ex => (Threw ex, this')
    end.

(** [initialize], lines 51-87. *)
Definition initialize : OC bool :=
  if negb supportsNestedAppAuth then ret false
  else
    tryCatch
      (if windowDefined then
         proxy <- onEnv BridgeProxyCreate BridgeProxy.create ;;
         tryCatch
           (capabilities <-
              onEnv GetHostCapabilities
                (fun e => (BridgeProxy.getHostCapabilities proxy e, e)) ;;
            if match capabilities with
               | Some c => queryAccount c
               | None => false
               end
            then
              account <- onEnv GetActiveAccount
                           (BridgeProxy.getActiveAccount proxy) ;;
              assignActiveAccount account
            else ret tt)
           (fun _ => ret tt) ;;
         assignBridgeProxy proxy ;;
         assignAvailable true
       else ret tt)
      (fun ex => note (LoggerInfoPii ex)) ;;
    available <- readAvailable ;;
    note (LoggerInfo available) ;;
    readAvailable.

End Methods.

(** A scripted host: the replies of its three calls. *)
Record Script := mkScript {
  createReply : JsError + nat;
  capabilitiesReply : JsError + option BridgeCapabilities;
  accountReply : JsError + option string }.

Definition scripted : BridgeProxy.t Script nat string := {|
  BridgeProxy.create := fun e => (createReply e, e);
  BridgeProxy.getHostCapabilities := fun _ e => capabilitiesReply e;
  BridgeProxy.getActiveAccount := fun _ e => (accountReply e, e) |}.

Definition fresh (e : Script) : t Script nat string :=
  mk None None false e [].

Definition hostDown : JsError :=
  BridgeError "BRIDGE_UNAVAILABLE" "No host answered.".

(** The host creates proxy 7 and then fails the account query. *)
Definition flakyHost : Script :=
  mkScript (inr 7%nat) (inr (Some (mkCapabilities true))) (inl hostDown).

(** The host creates proxy 7 and reports bob as active account. *)
Definition friendlyHost : Script :=
  mkScript (inr 7%nat) (inr (Some (mkCapabilities true)))
           (inr (Some "bob")).

(** No host: [create] rejects. *)
Definition noHost : Script :=
  mkScript (inl hostDown) (inl hostDown) (inl hostDown).

(** A context that an earlier [initialize] made available, with proxy 3
    and active account ann, now facing no host. *)
Definition availableThenNoHost : t Script nat string :=
  mk (Some 3%nat) (Some "ann") true noHost [].

End TeamsAppOperatingContext.

(** Further concrete inputs for the controller. *)
Module Examples.

(** A request that brings its own correlation identifier. *)
Definition identifiedRequest : Request.t :=
  Request.mk (Some "corr-1") (Some Reference.alice) None
             (Some ["openid"]) None.

(** Alice, with a fresh access token but no id token. *)
Definition noIdTokenWorld
    : World Reference.Store Reference.Host Reference.TokenRequest :=
  Reference.world
    (Reference.mkStore
       {[ "alice.home" := AccountEntity.mk Reference.alice None None ]}
       {[ "alice.home" := Reference.aliceAccessToken 5000 ]}
       ∅ None 4 1000)
    Reference.grantingHost.

(** Alice, known to the storage but without any token. *)
Definition noTokenWorld
    : World Reference.Store Reference.Host Reference.TokenRequest :=
  Reference.world
    (Reference.mkStore
       {[ "alice.home" := AccountEntity.mk Reference.alice None None ]}
       ∅ ∅ None 4 1000)
    Reference.grantingHost.

(** Hydration of the granted result followed by activation of its account,
    as the flows perform it: once, and twice with the system clock at [t]
    by the second time. *)
Definition hydrateOnce
    : M (World Reference.Store Reference.Host Reference.TokenRequest) unit :=
  hydrateAndActivate (Storage := Reference.storage)
    Reference.grantedResult Reference.bareRequest.

Definition hydrateTwice (t : Z)
    : M (World Reference.Store Reference.Host Reference.TokenRequest) unit :=
  hydrateOnce ;; Reference.elapse t ;; hydrateOnce.

(** The cache lookup for [identifiedRequest] once the clock shows [t]. *)
Definition lookupAt (t : Z)
    : M (World Reference.Store Reference.Host Reference.TokenRequest)
        (option AuthenticationResult.t) :=
  Reference.elapse t ;;
  acquireTokenFromCacheInternal
    (Crypto := Reference.crypto) (Storage := Reference.storage)
    (Bridge := Reference.bridge) (Adapter := Reference.adapter)
    Reference.config identifiedRequest.

End Examples.

(** ** Further classification of trace entries *)

Definition samePerformanceEvent (a b : PerformanceEvents) : bool :=
  match a, b with
  | AcquireTokenPopup, AcquireTokenPopup
  | SsoSilent, SsoSilent
  | AcquireTokenSilent, AcquireTokenSilent => true
  | _, _ => false
  end.

Definition isStartOf {NaaReq} (n : PerformanceEvents) (c : Call NaaReq) : bool :=
  match c with
  | StartMeasurement m _ => samePerformanceEvent n m
  | _ => false
  end.

Definition isEndOf {NaaReq} (n : PerformanceEvents) (c : Call NaaReq) : bool :=
  match c with
  | MeasurementEnd m _ _ => samePerformanceEvent n m
  | _ => false
  end.

Definition isSilentBridgeCall {NaaReq} (c : Call NaaReq) : bool :=
  match c with
  | BridgeGetTokenSilent _ => true
  | _ => false
  end.

Definition isInteractiveBridgeCall {NaaReq} (c : Call NaaReq) : bool :=
  match c with
  | BridgeGetTokenInteractive _ => true
  | _ => false
  end.

Definition isAccountResolutionCall {NaaReq} (c : Call NaaReq) : bool :=
  match c with
  | BridgeGetAccountContext | GetAccountByHomeId _ => true
  | _ => false
  end.

(** ** Facts about the controller *)

Lemma truthy_Some (a : option string) (c : string) :
  truthy a = Some c → a = Some c ∧ c ≠ "".
Proof.
  unfold truthy. destruct a as [s|]; [|discriminate].
  destruct (String.eqb s "") eqn:E; [discriminate|].
  intros [= <-]. split; [reflexivity|].
  intros ->. discriminate.
Qed.

Lemma truthy_nonempty (c : string) : c ≠ "" → truthy (Some c) = Some c.
Proof.
  intros Hc. unfold truthy. destruct (String.eqb c "") eqn:E; [|reflexivity].
  apply String.eqb_eq in E. contradiction.
Qed.

Section ControllerFacts.
Context {Store Host NaaReq NaaResp : Type}.
Context `{Crypto : browserCrypto.ICrypto}.
Context `{Storage : browserStorage.BrowserCacheManager Store}.
Context `{Bridge : bridgeProxy.IBridgeProxy Host NaaReq NaaResp}.
Context `{Adapter : nestedAppAuthAdapter.NestedAppAuthAdapter NaaReq NaaResp}.
Variable config : BrowserConfiguration.t.

Local Abbreviation W := (World Store Host NaaReq).

Lemma truthy_guid (n : nat) :
  truthy (Some (browserCrypto.createNewGuid n))
  = Some (browserCrypto.createNewGuid n).
Proof. apply truthy_nonempty, browserCrypto.createNewGuid_nonempty. Qed.

(** Symbolic execution of the controller. *)
Ltac js_unfold :=
  unfold acquireTokenPopup, acquireTokenSilent, ssoSilent,
    acquireTokenSilentInternal, acquireTokenFromCache,
    acquireTokenFromCacheInternal, acquireTokenInteractive,
    hydrateCache, ensureValidRequest, storage_setActiveAccount,
    storage_hydrateCache, bridge_getTokenSilent, bridge_getTokenInteractive,
    callBridge, bridge_getAccountContext, readStore, writeStore, nowSeconds,
    emitEvent, startMeasurement, measurement_add, measurement_increment,
    measurement_end, createNewGuid, logger_verbose, logger_error, call,
    record, liftThrowing, tryCatch, bind, ret, throw.

Ltac js_run := js_unfold; cbn.

Ltac trace_norm := rewrite <- ?app_assoc; simpl app.

Lemma validRequest_account (request : Request.t) (w : W) :
  Request.account (validRequest request w) = Request.account request.
Proof. unfold validRequest. destruct (truthy _); reflexivity. Qed.

Lemma buildAuthRequest_validRequest (request : Request.t) (w : W)
    (acct : AccountInfo.t) (c : string) :
  buildAuthRequest (validRequest request w) acct c
  = buildAuthRequest request acct c.
Proof. unfold validRequest. destruct (truthy _); reflexivity. Qed.

Lemma buildAuthRequest_withCorrelationId (request : Request.t)
    (g : string) (acct : AccountInfo.t) (c : string) :
  buildAuthRequest (Request.withCorrelationId request g) acct c
  = buildAuthRequest request acct c.
Proof. reflexivity. Qed.

(** Follow every path of a run: case on each collaborator answer the run
    is stuck on, innermost first. *)
Ltac destruct_innermost x :=
  lazymatch x with
  | context [match ?y with _ => _ end] => destruct_innermost y
  | _ => destruct x eqn:?
  end.

Ltac js_cases :=
  repeat (cbn; rewrite ?truthy_guid;
          match goal with
          | |- context [match ?x with _ => _ end] => destruct_innermost x
          end);
  cbn.

(** Read a goal [run = (o, w') → _] whose run is evaluated. *)
Ltac run_inv o w' :=
  let Heq := fresh "Heq" in
  let Ho := fresh "Ho" in
  let Hw := fresh "Hw" in
  intros Heq;
  pose proof (f_equal fst Heq) as Ho; pose proof (f_equal snd Heq) as Hw;
  clear Heq; cbn [fst snd] in Ho, Hw; subst o w';
  cbn [store host guids clock trace].

Ltac result_inv w' :=
  let Heq := fresh "Heq" in
  let Ho := fresh "Ho" in
  let Hw := fresh "Hw" in
  intros Heq;
  pose proof (f_equal fst Heq) as Ho; pose proof (f_equal snd Heq) as Hw;
  clear Heq; cbn [fst snd] in Ho, Hw; subst w';
  first [discriminate Ho | injection Ho as <-];
  cbn [store host guids clock trace].

Lemma snoc2 {A} (l : list A) (a b : A) : (l ++ [a]) ++ [b] = l ++ [a; b].
Proof. rewrite <- app_assoc. reflexivity. Qed.

Ltac fst_of_run :=
  match goal with
  | E : ?x = (_, _) |- fst ?x = _ => rewrite E; reflexivity
  end.

Ltac solve_step_failure :=
  solve [ eapply RequestConversionFails; eassumption
        | eapply BridgeCallFails; [eassumption | fst_of_run]
        | eapply ResponseConversionFails;
          [eassumption | fst_of_run | eassumption]
        | eapply HydrationFails;
          [eassumption | fst_of_run | eassumption | eassumption] ].

(** *** The cache lookup *)

(** C1. A silent request whose resolved account has a fresh matching cached
    access token and a matching cached id token is answered with the result
    the adapter assembles from the two cached tokens and the normalized
    request; the run makes no bridge token call and no storage write, and
    leaves storage and host as they were. *)
Theorem cache_hit_is_served_from_cache (request : Request.t) (w : W)
    (acct : AccountInfo.t) (token : AccessTokenEntity.t)
    (idt : IdTokenEntity.t) :
  let v := validRequest request w in
  let a := buildAuthRequest v acct (operationCorrelationId request w) in
  let keys := browserStorage.getTokenKeys (store w) in
  resolveAccount v w = Some acct →
  browserStorage.getAccessToken acct a keys (AccountInfo.tenantId acct)
    (store w) = Some token →
  TimeUtils.wasClockTurnedBack (clock w) (AccessTokenEntity.cachedAt token)
    = false →
  TimeUtils.isTokenExpired (clock w) (AccessTokenEntity.expiresOn token)
    (BrowserConfiguration.tokenRenewalOffsetSeconds config) = false →
  browserStorage.getIdToken acct keys (AccountInfo.tenantId acct) (store w)
    = Some idt →
  ∃ w' calls,
    acquireTokenSilent config request w
    = (Returned (nestedAppAuthAdapter.fromCachedTokens acct idt token a
                   (operationCorrelationId request w)), w')
    ∧ store w' = store w ∧ host w' = host w
    ∧ trace w' = trace w ++ calls
    ∧ forallb (fun c => negb (isBridgeTokenCall c) && negb (isStorageWrite c))
              calls = true.
Proof.
  intros v a keys Hacct Htok Hback Hexp Hid.
  unfold resolveAccount in Hacct. subst a v keys.
  rewrite validRequest_account in Hacct.
  rewrite buildAuthRequest_validRequest in *.
  unfold operationCorrelationId, orElse in *.
  js_run.
  destruct (truthy (Request.correlationId request)) as [c|] eqn:E; cbn.
  - rewrite Hacct; cbn. rewrite E; cbn. rewrite Htok; cbn.
    rewrite Hback, Hexp; cbn. rewrite Hid; cbn.
    eexists _, _. split; [reflexivity|]. cbn.
    repeat split. trace_norm. reflexivity. reflexivity.
  - rewrite Hacct; cbn. rewrite truthy_guid; cbn.
    rewrite buildAuthRequest_withCorrelationId, Htok; cbn.
    rewrite Hback, Hexp; cbn. rewrite Hid; cbn.
    eexists _, _. split; [reflexivity|]. cbn.
    repeat split. trace_norm. reflexivity. reflexivity.
Qed.

(** C2. When the cached access token of the resolved account fails the
    freshness validation (the clock was turned back since it was cached, or
    the current time is within the renewal offset of its expiry), the cache
    lookup returns absent, and the storage it leaves is the one
    [removeAccountContext] produces for that account; the removal is the
    last call before the lookup returns. *)
Theorem stale_access_token_purges_account (request : Request.t) (w : W)
    (acct : AccountInfo.t) (token : AccessTokenEntity.t) :
  let a := buildAuthRequest request acct (operationCorrelationId request w) in
  let entity := AccountEntity.createFromAccountInfo acct None None in
  resolveAccount request w = Some acct →
  browserStorage.getAccessToken acct a (browserStorage.getTokenKeys (store w))
    (AccountInfo.tenantId acct) (store w) = Some token →
  TimeUtils.wasClockTurnedBack (clock w) (AccessTokenEntity.cachedAt token)
    = true
  ∨ TimeUtils.isTokenExpired (clock w) (AccessTokenEntity.expiresOn token)
      (BrowserConfiguration.tokenRenewalOffsetSeconds config) = true →
  ∃ w' earlier,
    acquireTokenFromCacheInternal config request w = (Returned None, w')
    ∧ store w' = browserStorage.removeAccountContext entity (store w)
    ∧ trace w' = earlier ++ [StorageRemoveAccountContext entity].
Proof.
  intros a entity Hacct Htok Hstale.
  assert (TimeUtils.wasClockTurnedBack (clock w)
            (AccessTokenEntity.cachedAt token)
          || TimeUtils.isTokenExpired (clock w)
               (AccessTokenEntity.expiresOn token)
               (BrowserConfiguration.tokenRenewalOffsetSeconds config) = true)
    as Hor by (apply orb_true_iff; exact Hstale).
  unfold resolveAccount in Hacct. subst a entity.
  unfold operationCorrelationId, orElse in *.
  js_run. rewrite Hacct; cbn.
  destruct (truthy (Request.correlationId request)) as [c|] eqn:E; cbn.
  - rewrite Htok; cbn. rewrite Hor; cbn.
    eexists _, _. split; [reflexivity|]. cbn. split; reflexivity.
  - rewrite Htok; cbn. rewrite Hor; cbn.
    eexists _, _. split; [reflexivity|]. cbn. split; reflexivity.
Qed.

(** The numeric reading of the freshness validation. *)
Lemma stale_iff (now cachedAt expiresOn offset : Z) :
  TimeUtils.wasClockTurnedBack now cachedAt = true
  ∨ TimeUtils.isTokenExpired now expiresOn offset = true
  ↔ now < cachedAt ∨ now >= expiresOn - offset.
Proof.
  unfold TimeUtils.wasClockTurnedBack, TimeUtils.isTokenExpired.
  rewrite Z.ltb_lt, Z.leb_le. lia.
Qed.

(** C7. The lookup consults the account of the request when there is one,
    otherwise the stored account of the home account identifier the bridge
    reports.  When neither resolves, the lookup returns absent after the
    account resolution alone, without any call on token storage; the silent
    flow nevertheless goes on to the bridge: whenever the adapter yields a
    bridge request, [getTokenSilent] is called with it. *)
Theorem unresolved_account_skips_only_the_cache_check (request : Request.t)
    (w : W) :
  (∀ a, Request.account request = Some a → resolveAccount request w = Some a)
  ∧ (Request.account request = None →
     resolveAccount request w
     = browserStorage.getAccountByHomeId
         (bridgeProxy.getAccountContext (host w)) (store w))
  ∧ (∀ acct, resolveAccount request w = Some acct →
     ∃ calls,
       trace (snd (acquireTokenFromCacheInternal config request w))
       = trace w ++ calls
       ∧ StorageGetAccessToken acct
           (buildAuthRequest request acct (operationCorrelationId request w))
           (AccountInfo.tenantId acct) ∈ calls)
  ∧ (resolveAccount request w = None →
     (∃ w' calls,
        acquireTokenFromCacheInternal config request w = (Returned None, w')
        ∧ store w' = store w
        ∧ trace w' = trace w ++ calls
        ∧ forallb (fun c => negb (isTokenStorageCall c)) calls = true)
     ∧ ∀ naaRequest,
         nestedAppAuthAdapter.toNaaTokenRequest (validRequest request w)
           = inr naaRequest →
         ∃ calls,
           trace (snd (acquireTokenSilent config request w)) = trace w ++ calls
           ∧ BridgeGetTokenSilent naaRequest ∈ calls).
Proof.
  unfold resolveAccount.
  split; [intros a ->; reflexivity|].
  split; [intros ->; reflexivity|].
  split; [|intros Hnone; split].
  - intros acct Hacct. unfold operationCorrelationId, orElse.
    js_run. rewrite Hacct; cbn.
    destruct (truthy (Request.correlationId request)) as [c|] eqn:E; js_cases.
    all: eexists; split; [trace_norm; reflexivity|].
    all: repeat first [apply list_elem_of_here | apply list_elem_of_further].
  - js_run. rewrite Hnone; cbn. eexists _, _. split; [reflexivity|]. cbn.
    split; [reflexivity|]. split; [trace_norm; reflexivity|]. reflexivity.
  - intros n Hn. revert Hn. unfold validRequest. js_run.
    destruct (truthy (Request.correlationId request)) as [c|] eqn:E; cbn.
    all: rewrite Hnone; cbn; intros ->; js_cases.
    all: eexists; split; [trace_norm; reflexivity|].
    all: repeat first [apply list_elem_of_here | apply list_elem_of_further].
Qed.

(** C9. For a request with a resolved account, the request the lookup hands
    to token storage carries a non-empty correlation identifier (the
    caller's, or a new GUID), the caller's authority or else the account's
    environment, the caller's scopes or else the OIDC default scopes when
    none or an empty list was supplied, and the caller's other fields,
    unchanged. *)
Theorem lookup_request_is_normalized (request : Request.t) (w : W)
    (acct : AccountInfo.t) :
  let a := buildAuthRequest request acct (operationCorrelationId request w) in
  resolveAccount request w = Some acct →
  (∃ calls,
     trace (snd (acquireTokenFromCacheInternal config request w))
     = trace w ++ calls
     ∧ StorageGetAccessToken acct a (AccountInfo.tenantId acct) ∈ calls)
  ∧ BaseAuthRequest.correlationId a ≠ ""
  ∧ (∀ c, truthy (Request.correlationId request) = Some c →
          BaseAuthRequest.correlationId a = c)
  ∧ (truthy (Request.correlationId request) = None →
     BaseAuthRequest.correlationId a = browserCrypto.createNewGuid (guids w))
  ∧ (∀ x, truthy (Request.authority request) = Some x →
          BaseAuthRequest.authority a = x)
  ∧ (truthy (Request.authority request) = None →
     BaseAuthRequest.authority a = AccountInfo.environment acct)
  ∧ (∀ s l, Request.scopes request = Some (s :: l) →
            BaseAuthRequest.scopes a = s :: l)
  ∧ (Request.scopes request = None ∨ Request.scopes request = Some [] →
     BaseAuthRequest.scopes a = OIDC_DEFAULT_SCOPES)
  ∧ BaseAuthRequest.account a = Request.account request
  ∧ BaseAuthRequest.claims a = Request.claims request.
Proof.
  intros a Hacct. subst a.
  split.
  { unfold resolveAccount in Hacct. unfold operationCorrelationId, orElse.
    js_run. rewrite Hacct; cbn.
    destruct (truthy (Request.correlationId request)) as [c|] eqn:E; js_cases.
    all: eexists; split; [trace_norm; reflexivity|].
    all: repeat first [apply list_elem_of_here | apply list_elem_of_further]. }
  unfold buildAuthRequest, operationCorrelationId, orElse.
  cbn [BaseAuthRequest.correlationId BaseAuthRequest.authority
       BaseAuthRequest.scopes BaseAuthRequest.account BaseAuthRequest.claims].
  repeat split.
  - destruct (truthy (Request.correlationId request)) as [c|] eqn:E.
    + apply truthy_Some in E. tauto.
    + apply browserCrypto.createNewGuid_nonempty.
  - intros c ->. reflexivity.
  - intros ->. reflexivity.
  - intros x ->. reflexivity.
  - intros ->. reflexivity.
  - intros s l ->. reflexivity.
  - intros [-> | ->]; reflexivity.
Qed.

(** *** Failures of the bridge step *)

Ltac solve_throw_inversion :=
  eexists _, _; split; [solve_step_failure|];
  split; [reflexivity|];
  split; [rewrite snoc2; f_equal; trace_norm; reflexivity | reflexivity].

(** Every way the silent flow throws: the bridge step, started from the
    storage the cache check left, raised some [e]; the flow emitted the
    failure event, ended the measurement as failed and threw the adapter's
    conversion of [e]. *)
Lemma acquireTokenSilentInternal_throws (request : Request.t) (w w' : W)
    (e' : JsError) :
  acquireTokenSilentInternal config request w = (Threw e', w') →
  ∃ e calls,
    BridgeStepFailure bridgeProxy.getTokenSilent request
      (validRequest request w)
      (store (snd (acquireTokenFromCacheInternal config
                     (validRequest request w) w)))
      (host w) (clock w) e (store w')
    ∧ e' = nestedAppAuthAdapter.fromBridgeError e
    ∧ trace w'
      = (trace w ++ calls)
        ++ [EmitEvent ACQUIRE_TOKEN_FAILURE Silent PayloadNull (Some e);
            MeasurementEnd SsoSilent [success false] (Some e)]
    ∧ forallb (fun c => negb (isSetActiveAccount c)) calls = true.
Proof.
  unfold validRequest.
  destruct (truthy (Request.correlationId request)) as [c|] eqn:Hc.
  all: js_unfold; rewrite ?Hc; js_cases.
  all: try discriminate.
  all: intros Heq; pose proof (f_equal fst Heq) as He;
    pose proof (f_equal snd Heq) as Hw; clear Heq; cbn [fst snd] in He, Hw;
    subst w'; injection He as <-; cbn [store host guids clock trace].
  all: solve_throw_inversion.
Qed.

Lemma acquireTokenInteractive_throws (request : Request.t) (w w' : W)
    (e' : JsError) :
  acquireTokenInteractive request w = (Threw e', w') →
  ∃ e calls,
    BridgeStepFailure bridgeProxy.getTokenInteractive request
      (validRequest request w) (store w) (host w) (clock w) e (store w')
    ∧ e' = nestedAppAuthAdapter.fromBridgeError e
    ∧ trace w'
      = (trace w ++ calls)
        ++ [EmitEvent ACQUIRE_TOKEN_FAILURE Popup PayloadNull (Some e);
            MeasurementEnd AcquireTokenPopup [success false] (Some e)]
    ∧ forallb (fun c => negb (isSetActiveAccount c)) calls = true.
Proof.
  unfold validRequest.
  destruct (truthy (Request.correlationId request)) as [c|] eqn:Hc.
  all: js_unfold; rewrite ?Hc; js_cases.
  all: try discriminate.
  all: intros Heq; pose proof (f_equal fst Heq) as He;
    pose proof (f_equal snd Heq) as Hw; clear Heq; cbn [fst snd] in He, Hw;
    subst w'; injection He as <-; cbn [store host guids clock trace].
  all: solve_throw_inversion.
Qed.

(** A failed bridge step leaves the storage it started from, unless the
    storage's own [hydrateCache] rejected after [setAccount] had run. *)
Lemma BridgeStepFailure_store
    (getToken : NaaReq → Host → (JsError + NaaResp) * Host)
    (request v : Request.t) (s s' : Store) (h : Host) (now : Z) (e : JsError) :
  BridgeStepFailure getToken request v s h now e s' →
  s' = s
  ∨ ∃ result,
      browserStorage.hydrateCache result request
        (browserStorage.setAccount
           (AccountEntity.createFromAccountInfo
              (AuthenticationResult.account result)
              (AuthenticationResult.cloudGraphHostName result)
              (AuthenticationResult.msGraphHost result)) s)
      = (s', Some e).
Proof.
  intros [ | | | n r result e0 s0 _ _ _ Hh]; eauto.
Qed.

(** C3, as amended.  When the silent or the interactive flow fails, the
    failure is one of the bridge step: request conversion, bridge call,
    response conversion or hydration.  In the first three cases the cache
    state is exactly what it was when the bridge step began; in the last,
    the storage's [hydrateCache] rejected after [setAccount] had written
    the account entity, and the cache state is the one that rejected call
    left.  In no case has the flow set the active account. *)
Theorem failure_keeps_cache_unless_hydration_rejected (request : Request.t)
    (w w' : W) (e' : JsError) :
  (acquireTokenSilentInternal config request w = (Threw e', w') →
   let s0 := store (snd (acquireTokenFromCacheInternal config
                           (validRequest request w) w)) in
   ∃ e calls later,
     BridgeStepFailure bridgeProxy.getTokenSilent request
       (validRequest request w) s0 (host w) (clock w) e (store w')
     ∧ (store w' = s0
        ∨ ∃ result,
            browserStorage.hydrateCache result request
              (browserStorage.setAccount
                 (AccountEntity.createFromAccountInfo
                    (AuthenticationResult.account result)
                    (AuthenticationResult.cloudGraphHostName result)
                    (AuthenticationResult.msGraphHost result)) s0)
            = (store w', Some e))
     ∧ trace w' = (trace w ++ calls) ++ later
     ∧ forallb (fun c => negb (isSetActiveAccount c)) (calls ++ later) = true)
  ∧ (acquireTokenInteractive request w = (Threw e', w') →
     ∃ e calls later,
       BridgeStepFailure bridgeProxy.getTokenInteractive request
         (validRequest request w) (store w) (host w) (clock w) e (store w')
       ∧ (store w' = store w
          ∨ ∃ result,
              browserStorage.hydrateCache result request
                (browserStorage.setAccount
                   (AccountEntity.createFromAccountInfo
                      (AuthenticationResult.account result)
                      (AuthenticationResult.cloudGraphHostName result)
                      (AuthenticationResult.msGraphHost result)) (store w))
              = (store w', Some e))
       ∧ trace w' = (trace w ++ calls) ++ later
       ∧ forallb (fun c => negb (isSetActiveAccount c)) (calls ++ later)
         = true).
Proof.
  split.
  - intros Hrun s0.
    destruct (acquireTokenSilentInternal_throws _ _ _ _ Hrun)
      as (e & calls & Hfail & _ & Htrace & Hcalls).
    exists e, calls,
      [EmitEvent ACQUIRE_TOKEN_FAILURE Silent PayloadNull (Some e);
       MeasurementEnd SsoSilent [success false] (Some e)].
    split; [exact Hfail|].
    split; [exact (BridgeStepFailure_store _ _ _ _ _ _ _ _ Hfail)|].
    split; [exact Htrace|].
    rewrite forallb_app, Hcalls. reflexivity.
  - intros Hrun.
    destruct (acquireTokenInteractive_throws _ _ _ _ Hrun)
      as (e & calls & Hfail & _ & Htrace & Hcalls).
    exists e, calls,
      [EmitEvent ACQUIRE_TOKEN_FAILURE Popup PayloadNull (Some e);
       MeasurementEnd AcquireTokenPopup [success false] (Some e)].
    split; [exact Hfail|].
    split; [exact (BridgeStepFailure_store _ _ _ _ _ _ _ _ Hfail)|].
    split; [exact Htrace|].
    rewrite forallb_app, Hcalls. reflexivity.
Qed.

Ltac rewrite_known :=
  repeat match goal with
         | H : ?l = _ |- context [?l] => rewrite H
         end.

(** Follow the run along the path that equations in the context fix, and
    case on what they leave open. *)
Ltac js_follow :=
  repeat (cbn; cbn [store host guids clock trace]; rewrite ?truthy_guid;
          rewrite_known;
          match goal with
          | |- context [match ?x with _ => _ end] => destruct_innermost x
          end);
  cbn; rewrite_known; cbn.

Ltac merge_known :=
  cbn [store host guids clock trace] in *;
  simplify_eq;
  repeat (match goal with
          | H1 : ?l = _, H2 : ?l = _ |- _ => rewrite H1 in H2
          end;
          cbn [store host guids clock trace] in *; simplify_eq).

Ltac name_bridge_answer :=
  match goal with
  | H : fst ?x = _ |- _ =>
      let r := fresh "r" in
      let h := fresh "h" in
      let E := fresh "Hanswer" in
      destruct x as [r h] eqn:E; cbn [fst] in H; subst r
  end.

(** Every failure of the bridge step of the interactive flow reaches the
    caller, converted, after the bookkeeping. *)
Lemma acquireTokenInteractive_propagates (request : Request.t) (w : W)
    (e : JsError) (s' : Store) :
  BridgeStepFailure bridgeProxy.getTokenInteractive request
    (validRequest request w) (store w) (host w) (clock w) e s' →
  ∃ w' earlier,
    acquireTokenInteractive request w
    = (Threw (nestedAppAuthAdapter.fromBridgeError e), w')
    ∧ store w' = s'
    ∧ trace w'
      = earlier
        ++ [EmitEvent ACQUIRE_TOKEN_FAILURE Popup PayloadNull (Some e);
            MeasurementEnd AcquireTokenPopup [success false] (Some e)].
Proof.
  unfold validRequest.
  destruct (truthy (Request.correlationId request)) as [c|] eqn:Hc.
  all: intros [e0 Hn | n e0 Hn Hb | n r e0 Hn Hb Hv
              | n r result e0 s0 Hn Hb Hv Hh].
  all: try name_bridge_answer; try name_bridge_answer.
  all: js_unfold; js_follow.
  all: merge_known.
  all: eexists _, _; split; [reflexivity|]; cbn.
  all: split; [reflexivity | apply snoc2].
Qed.

(** Every failure of the bridge step of the silent flow, which runs when
    the cache check misses, reaches the caller, converted, after the
    bookkeeping. *)
Lemma acquireTokenSilentInternal_propagates (request : Request.t) (w : W)
    (e : JsError) (s' : Store) :
  fst (acquireTokenFromCacheInternal config (validRequest request w) w)
  = Returned None →
  BridgeStepFailure bridgeProxy.getTokenSilent request
    (validRequest request w)
    (store (snd (acquireTokenFromCacheInternal config
                   (validRequest request w) w)))
    (host w) (clock w) e s' →
  ∃ w' earlier,
    acquireTokenSilentInternal config request w
    = (Threw (nestedAppAuthAdapter.fromBridgeError e), w')
    ∧ store w' = s'
    ∧ trace w'
      = earlier
        ++ [EmitEvent ACQUIRE_TOKEN_FAILURE Silent PayloadNull (Some e);
            MeasurementEnd SsoSilent [success false] (Some e)].
Proof.
  unfold validRequest.
  destruct (truthy (Request.correlationId request)) as [c|] eqn:Hc.
  all: intros Hmiss
         [e0 Hn | n e0 Hn Hb | n r e0 Hn Hb Hv
         | n r result e0 s0 Hn Hb Hv Hh].
  all: revert Hmiss; try name_bridge_answer; try revert Hh.
  all: js_unfold; rewrite ?Hc; js_follow.
  all: intros; merge_known.
  all: eexists _, _; split; [reflexivity|]; cbn.
  all: split; [reflexivity | apply snoc2].
Qed.

(** C4. Every exception [e] that the bridge step of the silent or of the
    interactive flow raises (in the request conversion, the bridge call,
    the response conversion or the hydration) reaches the caller as
    [fromBridgeError e]: the flow throws that value, and the last two
    calls before the throw are the emission of the failure event carrying
    [e] and the end of the performance measurement as failed.
    Conversely, whatever either flow throws is such a conversion. *)
Theorem failures_are_converted_after_bookkeeping (request : Request.t)
    (w : W) :
  (∀ e s',
     fst (acquireTokenFromCacheInternal config (validRequest request w) w)
     = Returned None →
     BridgeStepFailure bridgeProxy.getTokenSilent request
       (validRequest request w)
       (store (snd (acquireTokenFromCacheInternal config
                      (validRequest request w) w)))
       (host w) (clock w) e s' →
     ∃ w' earlier,
       acquireTokenSilentInternal config request w
       = (Threw (nestedAppAuthAdapter.fromBridgeError e), w')
       ∧ store w' = s'
       ∧ trace w'
         = earlier
           ++ [EmitEvent ACQUIRE_TOKEN_FAILURE Silent PayloadNull (Some e);
               MeasurementEnd SsoSilent [success false] (Some e)])
  ∧ (∀ e s',
       BridgeStepFailure bridgeProxy.getTokenInteractive request
         (validRequest request w) (store w) (host w) (clock w) e s' →
       ∃ w' earlier,
         acquireTokenInteractive request w
         = (Threw (nestedAppAuthAdapter.fromBridgeError e), w')
         ∧ store w' = s'
         ∧ trace w'
           = earlier
             ++ [EmitEvent ACQUIRE_TOKEN_FAILURE Popup PayloadNull (Some e);
                 MeasurementEnd AcquireTokenPopup [success false] (Some e)])
  ∧ (∀ e' w',
       acquireTokenSilentInternal config request w = (Threw e', w') →
       ∃ e s0 earlier,
         BridgeStepFailure bridgeProxy.getTokenSilent request
           (validRequest request w) s0 (host w) (clock w) e (store w')
         ∧ e' = nestedAppAuthAdapter.fromBridgeError e
         ∧ trace w'
           = earlier
             ++ [EmitEvent ACQUIRE_TOKEN_FAILURE Silent PayloadNull (Some e);
                 MeasurementEnd SsoSilent [success false] (Some e)])
  ∧ (∀ e' w',
       acquireTokenInteractive request w = (Threw e', w') →
       ∃ e s0 earlier,
         BridgeStepFailure bridgeProxy.getTokenInteractive request
           (validRequest request w) s0 (host w) (clock w) e (store w')
         ∧ e' = nestedAppAuthAdapter.fromBridgeError e
         ∧ trace w'
           = earlier
             ++ [EmitEvent ACQUIRE_TOKEN_FAILURE Popup PayloadNull (Some e);
                 MeasurementEnd AcquireTokenPopup [success false] (Some e)]).
Proof.
  split; [|split; [|split]].
  - intros e s'. apply acquireTokenSilentInternal_propagates.
  - intros e s'. apply acquireTokenInteractive_propagates.
  - intros e' w' Hrun.
    destruct (acquireTokenSilentInternal_throws _ _ _ _ Hrun)
      as (e & calls & Hfail & He & Htrace & _).
    eexists e, _, _. split; [exact Hfail|]. split; [exact He | exact Htrace].
  - intros e' w' Hrun.
    destruct (acquireTokenInteractive_throws _ _ _ _ Hrun)
      as (e & calls & Hfail & He & Htrace & _).
    eexists e, _, _. split; [exact Hfail|]. split; [exact He | exact Htrace].
Qed.

(** *** Unsupported operations *)

(** C5. Each unsupported operation throws the unsupported-operation error
    at once and leaves the world as it found it: no event, no measurement,
    no storage write, no call at all. *)
Theorem unsupported_operations_do_nothing (w : W) :
  (∀ (request : Request.t),
     acquireTokenRedirect request w = (Threw createUnsupportedError, w))
  ∧ (∀ (request : Request.t),
       acquireTokenByCode request w = (Threw createUnsupportedError, w))
  ∧ (∀ (request : Request.t) (apiId : nat) accountId,
       acquireTokenNative request apiId accountId w
       = (Threw createUnsupportedError, w))
  ∧ (∀ (commonRequest silentRequest : Request.t),
       acquireTokenByRefreshToken commonRequest silentRequest w
       = (Threw createUnsupportedError, w))
  ∧ (∀ (request : option Request.t),
       loginRedirect request w = (Threw createUnsupportedError, w))
  ∧ (∀ (logoutRequest : option Request.t),
       logout logoutRequest w = (Threw createUnsupportedError, w))
  ∧ (∀ (logoutRequest : option Request.t),
       logoutRedirect logoutRequest w = (Threw createUnsupportedError, w))
  ∧ (∀ (logoutRequest : option Request.t),
       logoutPopup logoutRequest w = (Threw createUnsupportedError, w))
  ∧ (∀ (callback : string),
       addPerformanceCallback callback w = (Threw createUnsupportedError, w))
  ∧ (∀ callbackId,
       removePerformanceCallback callbackId w
       = (Threw createUnsupportedError, w))
  ∧ (∀ (logoutRequest : option Request.t),
       clearCache logoutRequest w = (Threw createUnsupportedError, w))
  ∧ getTokenCache w = (Threw createUnsupportedError, w)
  ∧ enableAccountStorageEvents w = (Threw createUnsupportedError, w)
  ∧ disableAccountStorageEvents w = (Threw createUnsupportedError, w)
  ∧ getPerformanceClient w = (Threw createUnsupportedError, w)
  ∧ getRedirectResponse w = (Threw createUnsupportedError, w).
Proof. repeat split. Qed.

(** *** Correlation identifiers and events *)

Ltac solve_uses :=
  cbn;
  first [ exact I
        | reflexivity
        | eassumption
        | eexists; split; reflexivity ].

Ltac solve_all_use :=
  repeat (constructor; [solve_uses|]); constructor.

Ltac solve_copied Hlaws :=
  let r := fresh "r" in
  let Hr := fresh "Hr" in
  intros Hlaws r Hr; try discriminate; injection Hr as <-;
  first [ apply (fromCachedTokens_correlationId Hlaws)
        | eapply (fromNaaTokenResponse_correlationId Hlaws);
          [eassumption | eassumption
           | first [eassumption | apply truthy_guid]] ].

Ltac solve_correlation Hlaws :=
  eexists; split; [trace_norm; reflexivity|];
  split; [reflexivity|];
  split; [reflexivity|];
  split; [solve_all_use | solve_copied Hlaws].

(** C6, as amended.  For a request that arrives without a correlation
    identifier, the silent and the interactive flow generate exactly one
    GUID [g], which is never replaced: the start event carries the request
    with [g], every measurement is opened under [g], the cache lookup asks
    token storage with [g], and the bridge is called with the adapter's
    translation of the request with [g].  A success event carries the
    result the flow returns, and that result's correlation identifier is
    [g] provided the adapter copies the identifier of the request into the
    results it builds.  Failure events carry a null payload. *)
Theorem generated_correlation_id_is_used_throughout (request : Request.t)
    (w w' : W) (o : Outcome AuthenticationResult.t) :
  truthy (Request.correlationId request) = None →
  acquireTokenSilentInternal config request w = (o, w')
  ∨ acquireTokenInteractive request w = (o, w') →
  let g := browserCrypto.createNewGuid (guids w) in
  let v := Request.withCorrelationId request g in
  g ≠ ""
  ∧ ∃ calls,
      trace w' = trace w ++ calls
      ∧ List.filter isGuidCall calls = [CryptoCreateNewGuid g]
      ∧ guids w' = Datatypes.S (guids w)
      ∧ Forall (usesCorrelationId g v o) calls
      ∧ (CopiesCorrelationId →
         ∀ r, o = Returned r → AuthenticationResult.correlationId r = g).
Proof.
  intros Hc Hrun g v. subst g v.
  split; [apply browserCrypto.createNewGuid_nonempty|].
  destruct Hrun as [Hrun | Hrun]; revert Hrun.
  - js_unfold; rewrite ?Hc; js_cases.
    all: run_inv o w'.
    all: solve_correlation Hlaws.
  - js_unfold; rewrite ?Hc; js_cases.
    all: run_inv o w'.
    all: solve_correlation Hlaws.
Qed.

Ltac solve_events :=
  cbn;
  first [ split; reflexivity
        | split;
          [repeat first [apply list_elem_of_here | apply list_elem_of_further]|];
          first [ left; eexists; split; reflexivity
                | right; eexists; split; reflexivity ] ].

(** C10. A silent call that the cache satisfies emits the success event
    twice, with the same result: once in [acquireTokenFromCache] and once in
    [acquireTokenSilentInternal].  A silent call that the cache does not
    satisfy emits a failure event with a null payload for the miss, opens
    the measurement of the bridge step and ends with either a success event
    for the result it returns or a second failure event for the error it
    throws. *)
Theorem cache_check_events (request : Request.t) (w w' : W)
    (o : Outcome AuthenticationResult.t) :
  acquireTokenSilentInternal config request w = (o, w') →
  let v := validRequest request w in
  let start := mkEvent ACQUIRE_TOKEN_START Silent (PayloadRequest v) None in
  let miss := mkEvent ACQUIRE_TOKEN_FAILURE Silent PayloadNull None in
  ∃ calls,
    trace w' = trace w ++ calls
    ∧ match fst (acquireTokenFromCacheInternal config v w) with
      | Returned (Some result) =>
          let hit := mkEvent ACQUIRE_TOKEN_SUCCESS Silent
                             (PayloadResult result) None in
          o = Returned result ∧ events calls = [start; hit; hit]
      | Returned None =>
          StartMeasurement SsoSilent (Request.correlationId v) ∈ calls
          ∧ ((∃ result,
                o = Returned result
                ∧ events calls
                  = [start; miss;
                     mkEvent ACQUIRE_TOKEN_SUCCESS Silent
                             (PayloadResult result) None])
             ∨ (∃ e,
                  o = Threw (nestedAppAuthAdapter.fromBridgeError e)
                  ∧ events calls
                    = [start; miss;
                       mkEvent ACQUIRE_TOKEN_FAILURE Silent PayloadNull
                               (Some e)]))
      | Threw _ => False
      end.
Proof.
  intros Hrun v start miss. subst start miss v. revert Hrun.
  unfold validRequest.
  destruct (truthy (Request.correlationId request)) as [c|] eqn:Hc.
  all: js_unfold; rewrite ?Hc; js_cases.
  all: run_inv o w'.
  all: eexists; split; [trace_norm; reflexivity|].
  all: solve_events.
Qed.

(** *** Further properties of the flows *)

(** X1. [ensureValidRequest] always returns a request with a non-empty
    correlation identifier and the caller's other fields, touches neither
    storage, host nor clock, and is idempotent: run again on the request it
    returned, it returns that request and generates nothing. *)
Theorem ensureValidRequest_idempotent (request : Request.t) (w : W) :
  ∃ v w1,
    ensureValidRequest request w = (Returned v, w1)
    ∧ truthy (Request.correlationId v)
      = Some (operationCorrelationId request w)
    ∧ Request.account v = Request.account request
    ∧ Request.authority v = Request.authority request
    ∧ Request.scopes v = Request.scopes request
    ∧ Request.claims v = Request.claims request
    ∧ store w1 = store w ∧ host w1 = host w ∧ clock w1 = clock w
    ∧ ensureValidRequest v w1 = (Returned v, w1).
Proof.
  unfold operationCorrelationId, orElse. js_unfold.
  destruct (truthy (Request.correlationId request)) as [c|] eqn:Hc.
  - eexists _, _. split; [reflexivity|]. rewrite Hc. repeat split.
  - eexists _, _. split; [reflexivity|]. cbn. rewrite truthy_guid.
    repeat split.
Qed.

(** X2. Whenever the cache lookup returns, it has made no bridge token
    call and no hydration call.  The only storage write it can have made
    is the purge of the resolved account, made only when that account's
    cached access token is stale, and it has then returned absent. *)
Theorem lookup_writes_only_to_purge_stale (request : Request.t) (w w' : W)
    (r : option AuthenticationResult.t) :
  acquireTokenFromCacheInternal config request w = (Returned r, w') →
  ∃ calls,
    trace w' = trace w ++ calls
    ∧ forallb (fun c => negb (isBridgeTokenCall c) && negb (isHydrationCall c))
              calls = true
    ∧ ((store w' = store w
        ∧ forallb (fun c => negb (isStorageWrite c)) calls = true)
       ∨ (r = None
          ∧ ∃ acct token,
              resolveAccount request w = Some acct
              ∧ browserStorage.getAccessToken acct
                  (buildAuthRequest request acct
                     (operationCorrelationId request w))
                  (browserStorage.getTokenKeys (store w))
                  (AccountInfo.tenantId acct) (store w) = Some token
              ∧ TimeUtils.wasClockTurnedBack (clock w)
                  (AccessTokenEntity.cachedAt token)
                || TimeUtils.isTokenExpired (clock w)
                     (AccessTokenEntity.expiresOn token)
                     (BrowserConfiguration.tokenRenewalOffsetSeconds config)
                = true
              ∧ store w'
                = browserStorage.removeAccountContext
                    (AccountEntity.createFromAccountInfo acct None None)
                    (store w))).
Proof.
  unfold resolveAccount, operationCorrelationId, orElse.
  js_unfold; js_cases.
  all: result_inv w'.
  all: eexists; split; [trace_norm; reflexivity|]; split; [reflexivity|].
  all: first [ left; split; reflexivity
             | right; split; [reflexivity|]; eexists _, _;
               repeat split; eassumption ].
Qed.

(** X3. With a resolved account but no matching cached access token, the
    lookup returns absent at once: the id token is not read and nothing
    is written. *)
Theorem missing_access_token_is_a_plain_miss (request : Request.t) (w : W)
    (acct : AccountInfo.t) :
  resolveAccount request w = Some acct →
  browserStorage.getAccessToken acct
    (buildAuthRequest request acct (operationCorrelationId request w))
    (browserStorage.getTokenKeys (store w)) (AccountInfo.tenantId acct)
    (store w) = None →
  ∃ w' calls,
    acquireTokenFromCacheInternal config request w = (Returned None, w')
    ∧ store w' = store w
    ∧ trace w' = trace w ++ calls
    ∧ forallb (fun c => match c with
                        | StorageGetIdToken _ _ => false
                        | _ => negb (isStorageWrite c)
                        end) calls = true.
Proof.
  unfold resolveAccount, operationCorrelationId, orElse.
  intros Hacct Htok. js_run. rewrite Hacct; cbn.
  destruct (truthy (Request.correlationId request)) as [c|] eqn:E; cbn.
  all: rewrite Htok; cbn.
  all: eexists _, _; split; [reflexivity|]; cbn.
  all: split; [reflexivity|]; split; [trace_norm; reflexivity|]; reflexivity.
Qed.

(** X4. A fresh cached access token without a matching cached id token is
    not served, and it is not evicted either: the lookup returns absent
    and writes nothing. *)
Theorem missing_id_token_is_a_miss_without_purge (request : Request.t)
    (w : W) (acct : AccountInfo.t) (token : AccessTokenEntity.t) :
  let keys := browserStorage.getTokenKeys (store w) in
  resolveAccount request w = Some acct →
  browserStorage.getAccessToken acct
    (buildAuthRequest request acct (operationCorrelationId request w))
    keys (AccountInfo.tenantId acct) (store w) = Some token →
  TimeUtils.wasClockTurnedBack (clock w) (AccessTokenEntity.cachedAt token)
    = false →
  TimeUtils.isTokenExpired (clock w) (AccessTokenEntity.expiresOn token)
    (BrowserConfiguration.tokenRenewalOffsetSeconds config) = false →
  browserStorage.getIdToken acct keys (AccountInfo.tenantId acct) (store w)
    = None →
  ∃ w' calls,
    acquireTokenFromCacheInternal config request w = (Returned None, w')
    ∧ store w' = store w
    ∧ trace w' = trace w ++ calls
    ∧ forallb (fun c => negb (isStorageWrite c)) calls = true.
Proof.
  intros keys Hacct Htok Hback Hexp Hid. subst keys.
  unfold resolveAccount, operationCorrelationId, orElse in *.
  js_run. rewrite Hacct; cbn.
  destruct (truthy (Request.correlationId request)) as [c|] eqn:E; cbn.
  all: rewrite Htok; cbn; rewrite Hback, Hexp; cbn; rewrite Hid; cbn.
  all: eexists _, _; split; [reflexivity|]; cbn.
  all: split; [reflexivity|]; split; [trace_norm; reflexivity|]; reflexivity.
Qed.

Ltac known := first [reflexivity | eassumption].

Ltac solve_bridge_result :=
  eexists _, _, _, _, _;
  split; [known|]; split; [known|]; split; [known|];
  split; [known|]; split; [reflexivity|]; split; [reflexivity|];
  split; [trace_norm; reflexivity | reflexivity].

(** X5. Whenever the silent flow returns a result, it is either the
    cached result, and storage and host are as before, or the adapter's
    conversion of the answer of one [getTokenSilent] call made from the
    host as it was; then the storage is the one the cache check left,
    with the result's account entity set, the result hydrated under the
    caller's original request and the result's account made active, in
    that order. *)
Theorem silent_result_origin (request : Request.t) (w w' : W)
    (result : AuthenticationResult.t) :
  acquireTokenSilentInternal config request w = (Returned result, w') →
  (fst (acquireTokenFromCacheInternal config (validRequest request w) w)
   = Returned (Some result)
   ∧ store w' = store w ∧ host w' = host w)
  ∨ (fst (acquireTokenFromCacheInternal config (validRequest request w) w)
     = Returned None
     ∧ ∃ naaRequest response s2 h' calls,
         nestedAppAuthAdapter.toNaaTokenRequest (validRequest request w)
         = inr naaRequest
         ∧ bridgeProxy.getTokenSilent naaRequest (host w) = (inr response, h')
         ∧ nestedAppAuthAdapter.fromNaaTokenResponse naaRequest response
             (clock w) = inr result
         ∧ browserStorage.hydrateCache result request
             (browserStorage.setAccount
                (AccountEntity.createFromAccountInfo
                   (AuthenticationResult.account result)
                   (AuthenticationResult.cloudGraphHostName result)
                   (AuthenticationResult.msGraphHost result))
                (store (snd (acquireTokenFromCacheInternal config
                               (validRequest request w) w))))
           = (s2, None)
         ∧ store w'
           = browserStorage.setActiveAccount
               (Some (AuthenticationResult.account result)) s2
         ∧ host w' = h'
         ∧ trace w' = trace w ++ calls
         ∧ List.filter isHydrationCall calls
           = [StorageSetAccount
                (AccountEntity.createFromAccountInfo
                   (AuthenticationResult.account result)
                   (AuthenticationResult.cloudGraphHostName result)
                   (AuthenticationResult.msGraphHost result));
              StorageHydrateCache result request;
              StorageSetActiveAccount
                (Some (AuthenticationResult.account result))]).
Proof.
  unfold validRequest.
  destruct (truthy (Request.correlationId request)) as [c|] eqn:Hc.
  all: js_unfold; rewrite ?Hc; js_cases.
  all: result_inv w'.
  all: first [ left; repeat split; reflexivity
             | right; split; [reflexivity|]; solve_bridge_result ].
Qed.

(** X6. Whenever the interactive flow returns a result, it is the
    adapter's conversion of the answer of one [getTokenInteractive] call;
    the storage is the initial one with the result's account entity set,
    the result hydrated under the caller's original request and the
    result's account made active; and the events of the call are the
    start event and one success event carrying the result. *)
Theorem interactive_result_origin (request : Request.t) (w w' : W)
    (result : AuthenticationResult.t) :
  acquireTokenInteractive request w = (Returned result, w') →
  ∃ naaRequest response s2 h' calls,
    nestedAppAuthAdapter.toNaaTokenRequest (validRequest request w)
    = inr naaRequest
    ∧ bridgeProxy.getTokenInteractive naaRequest (host w) = (inr response, h')
    ∧ nestedAppAuthAdapter.fromNaaTokenResponse naaRequest response (clock w)
      = inr result
    ∧ browserStorage.hydrateCache result request
        (browserStorage.setAccount
           (AccountEntity.createFromAccountInfo
              (AuthenticationResult.account result)
              (AuthenticationResult.cloudGraphHostName result)
              (AuthenticationResult.msGraphHost result)) (store w))
      = (s2, None)
    ∧ store w'
      = browserStorage.setActiveAccount
          (Some (AuthenticationResult.account result)) s2
    ∧ host w' = h'
    ∧ trace w' = trace w ++ calls
    ∧ events calls
      = [mkEvent ACQUIRE_TOKEN_START Popup
                 (PayloadRequest (validRequest request w)) None;
         mkEvent ACQUIRE_TOKEN_SUCCESS Popup (PayloadResult result) None].
Proof.
  unfold validRequest.
  destruct (truthy (Request.correlationId request)) as [c|] eqn:Hc.
  all: js_unfold; rewrite ?Hc; js_cases.
  all: result_inv w'.
  all: solve_bridge_result.
Qed.

(** X7. Purge, then refresh: when the resolved account's cached access
    token is stale and the bridge step succeeds, the silent flow returns
    the bridge's result, and the storage it leaves is the initial one with
    the account's context removed, then the result's account entity set,
    the result hydrated and its account made active. *)
Theorem stale_token_is_purged_then_refreshed (request : Request.t) (w : W)
    (acct : AccountInfo.t) (token : AccessTokenEntity.t)
    (naaRequest : NaaReq) (response : NaaResp) (h' : Host)
    (result : AuthenticationResult.t) (s2 : Store) :
  let v := validRequest request w in
  resolveAccount v w = Some acct →
  browserStorage.getAccessToken acct
    (buildAuthRequest v acct (operationCorrelationId request w))
    (browserStorage.getTokenKeys (store w)) (AccountInfo.tenantId acct)
    (store w) = Some token →
  TimeUtils.wasClockTurnedBack (clock w) (AccessTokenEntity.cachedAt token)
  || TimeUtils.isTokenExpired (clock w) (AccessTokenEntity.expiresOn token)
       (BrowserConfiguration.tokenRenewalOffsetSeconds config) = true →
  nestedAppAuthAdapter.toNaaTokenRequest v = inr naaRequest →
  bridgeProxy.getTokenSilent naaRequest (host w) = (inr response, h') →
  nestedAppAuthAdapter.fromNaaTokenResponse naaRequest response (clock w)
    = inr result →
  browserStorage.hydrateCache result request
    (browserStorage.setAccount
       (AccountEntity.createFromAccountInfo
          (AuthenticationResult.account result)
          (AuthenticationResult.cloudGraphHostName result)
          (AuthenticationResult.msGraphHost result))
       (browserStorage.removeAccountContext
          (AccountEntity.createFromAccountInfo acct None None) (store w)))
    = (s2, None) →
  ∃ w',
    acquireTokenSilent config request w = (Returned result, w')
    ∧ store w'
      = browserStorage.setActiveAccount
          (Some (AuthenticationResult.account result)) s2
    ∧ host w' = h'.
Proof.
  intros v Hacct Htok Hstale Hnaa Hbridge Hconv Hhyd. subst v.
  unfold resolveAccount in Hacct.
  rewrite validRequest_account in Hacct.
  rewrite buildAuthRequest_validRequest in Htok.
  unfold operationCorrelationId, orElse, validRequest in *.
  js_run.
  destruct (truthy (Request.correlationId request)) as [c|] eqn:E; cbn.
  - rewrite Hacct; cbn. rewrite E; cbn. rewrite Htok; cbn.
    rewrite Hstale; cbn. rewrite Hnaa; cbn. rewrite Hbridge; cbn.
    rewrite Hconv; cbn. rewrite Hhyd; cbn.
    eexists. split; [reflexivity|]. split; reflexivity.
  - rewrite Hacct; cbn. rewrite truthy_guid; cbn.
    rewrite buildAuthRequest_withCorrelationId, Htok; cbn.
    rewrite Hstale; cbn. rewrite Hnaa; cbn. rewrite Hbridge; cbn.
    rewrite Hconv; cbn. rewrite Hhyd; cbn.
    eexists. split; [reflexivity|]. split; reflexivity.
Qed.

Ltac solve_trace_facts tac :=
  eexists; split; [trace_norm; reflexivity|]; tac.

(** X8. In every run of the interactive flow the [AcquireTokenPopup]
    measurement is started exactly once and ended exactly once, whether
    the bridge step succeeds or fails.  In every run of the silent flow
    the [SsoSilent] measurement of the bridge step is started at most
    once, and ended exactly as often as it is started. *)
Theorem measurements_are_paired (request : Request.t) (w : W) :
  (∃ calls,
     trace (snd (acquireTokenSilentInternal config request w))
     = trace w ++ calls
     ∧ length (List.filter (isStartOf SsoSilent) calls)
       = length (List.filter (isEndOf SsoSilent) calls)
     ∧ (length (List.filter (isStartOf SsoSilent) calls) ≤ 1)%nat)
  ∧ (∃ calls,
       trace (snd (acquireTokenInteractive request w)) = trace w ++ calls
       ∧ length (List.filter (isStartOf AcquireTokenPopup) calls) = 1%nat
       ∧ length (List.filter (isEndOf AcquireTokenPopup) calls) = 1%nat).
Proof.
  split.
  all: js_unfold; js_cases.
  all: solve_trace_facts
         ltac:(cbn; (split; [reflexivity | first [lia | reflexivity]])).
Qed.

(** X9. No retry: a run of the silent flow makes at most one bridge token
    call and never [getTokenInteractive]; a run of the interactive flow
    makes at most one and never [getTokenSilent]. *)
Theorem at_most_one_bridge_token_call (request : Request.t) (w : W) :
  (∃ calls,
     trace (snd (acquireTokenSilentInternal config request w))
     = trace w ++ calls
     ∧ (length (List.filter isBridgeTokenCall calls) ≤ 1)%nat
     ∧ forallb (fun c => negb (isInteractiveBridgeCall c)) calls = true)
  ∧ (∃ calls,
       trace (snd (acquireTokenInteractive request w)) = trace w ++ calls
       ∧ (length (List.filter isBridgeTokenCall calls) ≤ 1)%nat
       ∧ forallb (fun c => negb (isSilentBridgeCall c)) calls = true).
Proof.
  split.
  all: js_unfold; js_cases.
  all: solve_trace_facts ltac:(cbn; split; [lia | reflexivity]).
Qed.

(** X10. The interactive flow never consults the cache: it resolves no
    account and reads no token from storage, whatever is cached; and
    whenever the adapter yields a bridge request, [getTokenInteractive] is
    called with it. *)
Theorem interactive_flow_ignores_the_cache (request : Request.t) (w : W) :
  ∃ calls,
    trace (snd (acquireTokenInteractive request w)) = trace w ++ calls
    ∧ forallb (fun c => negb (isAccountResolutionCall c)
                        && negb (isTokenStorageCall c)) calls = true
    ∧ ∀ naaRequest,
        nestedAppAuthAdapter.toNaaTokenRequest (validRequest request w)
        = inr naaRequest →
        BridgeGetTokenInteractive naaRequest ∈ calls.
Proof.
  unfold validRequest.
  destruct (truthy (Request.correlationId request)) as [c|] eqn:Hc.
  all: js_unfold; rewrite ?Hc; js_cases.
  all: solve_trace_facts
         ltac:(split; [reflexivity|];
               let Hn := fresh "Hn" in
               intros ? Hn;
               first [discriminate Hn | injection Hn as <-];
               repeat first [apply list_elem_of_here
                            | apply list_elem_of_further]).
Qed.

(** X11. A correlation identifier supplied by the caller is never
    replaced: both flows generate no GUID, and the start event, every
    measurement, the cache lookup and the bridge request all use the
    caller's request and identifier. *)
Theorem supplied_correlation_id_is_kept (request : Request.t) (w : W)
    (c : string) :
  truthy (Request.correlationId request) = Some c →
  (∃ calls,
     trace (snd (acquireTokenSilentInternal config request w))
     = trace w ++ calls
     ∧ guids (snd (acquireTokenSilentInternal config request w)) = guids w
     ∧ List.filter isGuidCall calls = []
     ∧ Forall (usesCorrelationId c request
                 (fst (acquireTokenSilentInternal config request w))) calls)
  ∧ (∃ calls,
       trace (snd (acquireTokenInteractive request w)) = trace w ++ calls
       ∧ guids (snd (acquireTokenInteractive request w)) = guids w
       ∧ List.filter isGuidCall calls = []
       ∧ Forall (usesCorrelationId c request
                   (fst (acquireTokenInteractive request w))) calls).
Proof.
  intros Hc. pose proof (truthy_Some _ _ Hc) as [Hid _].
  split.
  all: js_unfold; rewrite ?Hc; js_cases.
  all: rewrite ?Hid.
  all: solve_trace_facts
         ltac:(split; [reflexivity|]; split; [reflexivity|]; solve_all_use).
Qed.

End ControllerFacts.

(** ** The reference collaborators honour their contracts *)

#[global] Existing Instances
  Reference.crypto Reference.storage Reference.bridge Reference.adapter.

(** *** Hydration *)

Section HydrationFacts.
Context {Host NaaReq : Type}.

(** C8, amended.  Over the reference storage, hydrating twice with the
    same result, each time followed by making the result's account active,
    ends as hydrating once does and leaves the same active account, the
    same accounts and the same id tokens.  The access tokens are the same
    but for the one of the result's account, whose cached-at timestamp is
    the time [t] of the second hydration.  When the clock has not moved
    between the two hydrations, the whole observable state is the same. *)
Theorem rehydration_only_restamps (result : AuthenticationResult.t)
    (request : Request.t) (w : World Reference.Store Host NaaReq) (t : Z) :
  let once := hydrateAndActivate result request in
  let twice := once ;; Reference.elapse t ;; once in
  let id := AccountInfo.homeAccountId (AuthenticationResult.account result) in
  let s1 := cacheState (snd (once w)) in
  let s2 := cacheState (snd (twice w)) in
  fst (twice w) = fst (once w)
  ∧ Reference.activeAccount s2 = Reference.activeAccount s1
  ∧ Reference.accounts s2 = Reference.accounts s1
  ∧ Reference.idTokens s2 = Reference.idTokens s1
  ∧ (∀ k, k ≠ id →
       Reference.accessTokens s2 !! k = Reference.accessTokens s1 !! k)
  ∧ Reference.accessTokens s2 !! id
    = Reference.restamp t <$> Reference.accessTokens s1 !! id
  ∧ (t = Reference.stamp (store w) →
     Reference.observable s2 = Reference.observable s1).
Proof.
  intros once twice id s1 s2.
  subst once twice s1 s2. unfold cacheState, hydrateAndActivate.
  unfold Reference.elapse, hydrateCache, storage_setActiveAccount,
    storage_hydrateCache, writeStore, call, record, liftThrowing, bind, ret,
    throw.
  destruct w as [[ac at_ it act cap st] h g c tr].
  cbn. unfold Reference.hydrateCache, Reference.hasRoom. cbn.
  fold id.
  destruct (at_ !! id) as [tok|] eqn:Hlk; cbn;
    [|match goal with
      | |- context [if ?b then _ else _] => destruct b eqn:Hroom
      end; cbn].
  1, 2: rewrite lookup_insert_eq; cbn.
  1, 2: rewrite !insert_insert_eq, !lookup_insert_eq; cbn.
  1, 2: split; [reflexivity|]; split; [reflexivity|]; split; [reflexivity|].
  1, 2: split; [reflexivity|].
  1, 2: split; [intros k Hk; rewrite !lookup_insert_ne by done; reflexivity|].
  1, 2: split; [reflexivity | intros ->; reflexivity].
  rewrite Hlk.
  split; [reflexivity|]. split; [reflexivity|]. split; [reflexivity|].
  split; [reflexivity|]. split; [reflexivity|]. split; reflexivity.
Qed.

End HydrationFacts.

(** C8, as stated, fails when the clock moves between the two hydrations:
    hydrating the granted result at time 1000 caches alice's access token
    with cached-at 1000; hydrating again at time 1060 caches it again with
    cached-at 1060, so the token cache differs from the one a single
    hydration leaves.  A reader can tell: were the clock then set back to
    1030, the cache lookup would serve the token cached once and purge the
    one cached twice as stale. *)
Lemma rehydration_moves_cachedAt :
  fst (Examples.hydrateOnce Reference.refusedWorld) = Returned tt
  ∧ fst (Examples.hydrateTwice 1060 Reference.refusedWorld) = Returned tt
  ∧ AccessTokenEntity.cachedAt
      <$> Reference.accessTokens
            (cacheState (snd (Examples.hydrateOnce Reference.refusedWorld)))
          !! "alice.home"
    = Some 1000
  ∧ AccessTokenEntity.cachedAt
      <$> Reference.accessTokens
            (cacheState
               (snd (Examples.hydrateTwice 1060 Reference.refusedWorld)))
          !! "alice.home"
    = Some 1060
  ∧ Reference.observable
      (cacheState (snd (Examples.hydrateTwice 1060 Reference.refusedWorld)))
    ≠ Reference.observable
        (cacheState (snd (Examples.hydrateOnce Reference.refusedWorld)))
  ∧ (∃ result,
       fst ((Examples.hydrateOnce ;; Examples.lookupAt 1030)
              Reference.refusedWorld)
       = Returned (Some result))
  ∧ fst ((Examples.hydrateTwice 1060 ;; Examples.lookupAt 1030)
           Reference.refusedWorld)
    = Returned None.
Proof.
  split; [vm_compute; reflexivity|].
  split; [vm_compute; reflexivity|].
  split; [vm_compute; reflexivity|].
  split; [vm_compute; reflexivity|].
  split.
  - intros Heq.
    apply (f_equal (fun o => AccessTokenEntity.cachedAt
                               <$> o.1.2 !! "alice.home")) in Heq.
    vm_compute in Heq. discriminate.
  - split; [eexists; vm_compute; reflexivity | vm_compute; reflexivity].
Qed.

Lemma rehydration_only_restamps_witness :
  Reference.observable
    (cacheState (snd (Examples.hydrateTwice 1000 Reference.refusedWorld)))
  = Reference.observable
      (cacheState (snd (Examples.hydrateOnce Reference.refusedWorld)))
  ∧ Reference.accessTokens
      (cacheState (snd (Examples.hydrateTwice 1060 Reference.refusedWorld)))
    !! "alice.home"
    = Reference.restamp 1060
        <$> Reference.accessTokens
              (cacheState (snd (Examples.hydrateOnce Reference.refusedWorld)))
            !! "alice.home".
Proof.
  split.
  - destruct (rehydration_only_restamps Reference.grantedResult
                Reference.bareRequest Reference.refusedWorld 1000)
      as (_ & _ & _ & _ & _ & _ & Hsame).
    apply Hsame. vm_compute; reflexivity.
  - destruct (rehydration_only_restamps Reference.grantedResult
                Reference.bareRequest Reference.refusedWorld 1060)
      as (_ & _ & _ & _ & _ & Hrestamp & _).
    exact Hrestamp.
Defined.

Lemma reference_adapter_copies :
  CopiesCorrelationId (Adapter := Reference.adapter).
Proof.
  split; cbn.
  - reflexivity.
  - intros request n response ts result c [= <-].
    unfold Reference.fromNaaTokenResponse.
    destruct (_ || _); [discriminate|]. intros [= <-] Hc. cbn.
    unfold orElse. rewrite Hc. reflexivity.
Qed.

(** ** The theorems at concrete inputs *)

Lemma cache_hit_witness :
  resolveAccount Reference.bareRequest Reference.cachedWorld
  = Some Reference.alice
  ∧ ∃ w' calls,
      acquireTokenSilent Reference.config Reference.bareRequest
        Reference.cachedWorld
      = (Returned Reference.cachedResult, w')
      ∧ store w' = store Reference.cachedWorld
      ∧ host w' = host Reference.cachedWorld
      ∧ trace w' = trace Reference.cachedWorld ++ calls
      ∧ forallb (fun c => negb (isBridgeTokenCall c) && negb (isStorageWrite c))
                calls = true.
Proof.
  split; [vm_compute; reflexivity|].
  destruct (cache_hit_is_served_from_cache Reference.config
              Reference.bareRequest Reference.cachedWorld Reference.alice
              (Reference.aliceAccessToken 5000) Reference.aliceIdToken)
    as (w' & calls & Hrun & Hrest); try (vm_compute; reflexivity).
  exists w', calls. split; [|exact Hrest].
  rewrite Hrun. vm_compute. reflexivity.
Defined.

Lemma stale_access_token_witness :
  TimeUtils.isTokenExpired (clock Reference.staleWorld) 1030
    (BrowserConfiguration.tokenRenewalOffsetSeconds Reference.config) = true
  ∧ ∃ w' earlier,
      acquireTokenFromCacheInternal Reference.config Reference.bareRequestValid
        Reference.staleWorld
      = (Returned None, w')
      ∧ store w'
        = Reference.removeAccountContext
            (AccountEntity.mk Reference.alice None None)
            (store Reference.staleWorld)
      ∧ trace w'
        = earlier
          ++ [StorageRemoveAccountContext
                (AccountEntity.mk Reference.alice None None)].
Proof.
  split; [vm_compute; reflexivity|].
  refine (stale_access_token_purges_account Reference.config
            Reference.bareRequestValid Reference.staleWorld Reference.alice
            (Reference.aliceAccessToken 1030) _ _ _).
  - vm_compute; reflexivity.
  - vm_compute; reflexivity.
  - right. vm_compute; reflexivity.
Defined.

(** C3, as stated, fails: the host grants the tokens, the storage rejects
    them during hydration, the silent call throws, and the account that
    [setAccount] wrote before the rejection stays in the cache, which held
    no account when the call began and none after the cache check. *)
Lemma hydration_failure_leaves_account_written :
  fst (acquireTokenSilent Reference.config Reference.bareRequest
         Reference.fullWorld)
  = Threw Reference.unknownError
  ∧ Reference.accounts (cacheState Reference.fullWorld) !! "alice.home" = None
  ∧ Reference.accounts
      (cacheState
         (snd (acquireTokenFromCacheInternal Reference.config
                 Reference.bareRequestValid Reference.fullWorld)))
    !! "alice.home" = None
  ∧ Reference.accounts
      (cacheState
         (snd (acquireTokenSilent Reference.config Reference.bareRequest
                 Reference.fullWorld)))
    !! "alice.home" = Some (AccountEntity.mk Reference.alice None None)
  ∧ cacheState
      (snd (acquireTokenSilent Reference.config Reference.bareRequest
              Reference.fullWorld))
    ≠ cacheState Reference.fullWorld.
Proof.
  repeat split; try (vm_compute; reflexivity).
  intros Heq.
  apply (f_equal (fun s => Reference.accounts s !! "alice.home")) in Heq.
  vm_compute in Heq. discriminate.
Qed.

Lemma failure_keeps_cache_witness :
  acquireTokenSilentInternal Reference.config Reference.bareRequest
    Reference.refusedWorld
  = (Threw Reference.userCancelled,
     snd (acquireTokenSilentInternal Reference.config Reference.bareRequest
            Reference.refusedWorld))
  ∧ ∃ e calls later,
      BridgeStepFailure bridgeProxy.getTokenSilent Reference.bareRequest
        Reference.bareRequestValid (store Reference.refusedWorld)
        (host Reference.refusedWorld) (clock Reference.refusedWorld) e
        (store Reference.refusedWorld)
      ∧ trace (snd (acquireTokenSilentInternal Reference.config
                      Reference.bareRequest Reference.refusedWorld))
        = (trace Reference.refusedWorld ++ calls) ++ later
      ∧ forallb (fun c => negb (isSetActiveAccount c)) (calls ++ later) = true.
Proof.
  split; [vm_compute; reflexivity|].
  destruct (failure_keeps_cache_unless_hydration_rejected Reference.config
              Reference.bareRequest Reference.refusedWorld
              (snd (acquireTokenSilentInternal Reference.config
                      Reference.bareRequest Reference.refusedWorld))
              Reference.userCancelled) as [Hsilent _].
  destruct (Hsilent ltac:(vm_compute; reflexivity))
    as (e & calls & later & Hfail & _ & Htrace & Hactive).
  exists e, calls, later. split; [|split; [exact Htrace | exact Hactive]].
  exact Hfail.
Defined.

Lemma failures_are_converted_witness :
  (∃ w' earlier,
     acquireTokenSilentInternal Reference.config Reference.bareRequest
       Reference.refusedWorld
     = (Threw (Reference.fromBridgeError Reference.hostFailure), w')
     ∧ store w' = Reference.emptyStore
     ∧ trace w'
       = earlier
         ++ [EmitEvent ACQUIRE_TOKEN_FAILURE Silent PayloadNull
               (Some Reference.hostFailure);
             MeasurementEnd SsoSilent [success false]
               (Some Reference.hostFailure)])
  ∧ (∃ w' earlier,
       acquireTokenInteractive Reference.bareRequest Reference.refusedWorld
       = (Threw (Reference.fromBridgeError Reference.hostFailure), w')
       ∧ store w' = Reference.emptyStore
       ∧ trace w'
         = earlier
           ++ [EmitEvent ACQUIRE_TOKEN_FAILURE Popup PayloadNull
                 (Some Reference.hostFailure);
               MeasurementEnd AcquireTokenPopup [success false]
                 (Some Reference.hostFailure)])
  ∧ (∃ e s0 earlier,
       BridgeStepFailure bridgeProxy.getTokenSilent Reference.bareRequest
         (validRequest Reference.bareRequest Reference.refusedWorld) s0
         (host Reference.refusedWorld) (clock Reference.refusedWorld) e
         (store (snd (acquireTokenSilentInternal Reference.config
                        Reference.bareRequest Reference.refusedWorld)))
       ∧ Reference.userCancelled = Reference.fromBridgeError e
       ∧ trace (snd (acquireTokenSilentInternal Reference.config
                       Reference.bareRequest Reference.refusedWorld))
         = earlier
           ++ [EmitEvent ACQUIRE_TOKEN_FAILURE Silent PayloadNull (Some e);
               MeasurementEnd SsoSilent [success false] (Some e)])
  ∧ (∃ e s0 earlier,
       BridgeStepFailure bridgeProxy.getTokenInteractive Reference.bareRequest
         (validRequest Reference.bareRequest Reference.refusedWorld) s0
         (host Reference.refusedWorld) (clock Reference.refusedWorld) e
         (store (snd (acquireTokenInteractive Reference.bareRequest
                        Reference.refusedWorld)))
       ∧ Reference.userCancelled = Reference.fromBridgeError e
       ∧ trace (snd (acquireTokenInteractive Reference.bareRequest
                       Reference.refusedWorld))
         = earlier
           ++ [EmitEvent ACQUIRE_TOKEN_FAILURE Popup PayloadNull (Some e);
               MeasurementEnd AcquireTokenPopup [success false] (Some e)]).
Proof.
  destruct (failures_are_converted_after_bookkeeping Reference.config
              Reference.bareRequest Reference.refusedWorld)
    as (Hsilent & Hinteractive & Hsilent' & Hinteractive').
  split; [|split; [|split]].
  - apply (Hsilent Reference.hostFailure Reference.emptyStore).
    + vm_compute; reflexivity.
    + apply BridgeCallFails with (naaRequest := Reference.naaBareRequest).
      * vm_compute; reflexivity.
      * vm_compute; reflexivity.
  - apply (Hinteractive Reference.hostFailure Reference.emptyStore).
    apply BridgeCallFails with (naaRequest := Reference.naaBareRequest).
    + vm_compute; reflexivity.
    + vm_compute; reflexivity.
  - apply (Hsilent' Reference.userCancelled). vm_compute; reflexivity.
  - apply (Hinteractive' Reference.userCancelled). vm_compute; reflexivity.
Defined.

(** C6, as stated, fails: the request has no correlation identifier, the
    flow generates one and puts it in the start event, the bridge call
    fails, and neither failure event carries the identifier. *)
Lemma failure_events_carry_no_correlation_id :
  Request.correlationId Reference.bareRequest = None
  ∧ fst (acquireTokenSilent Reference.config Reference.bareRequest
           Reference.refusedWorld)
    = Threw Reference.userCancelled
  ∧ events (trace (snd (acquireTokenSilent Reference.config
                          Reference.bareRequest Reference.refusedWorld)))
    = [mkEvent ACQUIRE_TOKEN_START Silent
               (PayloadRequest Reference.bareRequestValid) None;
       mkEvent ACQUIRE_TOKEN_FAILURE Silent PayloadNull None;
       mkEvent ACQUIRE_TOKEN_FAILURE Silent PayloadNull
               (Some Reference.hostFailure)]
  ∧ eventCorrelationId
    <$> events (trace (snd (acquireTokenSilent Reference.config
                              Reference.bareRequest Reference.refusedWorld)))
    = [Some "g-0"; None; None].
Proof. repeat split; vm_compute; reflexivity. Qed.

Lemma generated_correlation_id_witness :
  truthy (Request.correlationId Reference.bareRequest) = None
  ∧ acquireTokenSilentInternal Reference.config Reference.bareRequest
      Reference.staleWorld
    = (Returned Reference.grantedResult,
       snd (acquireTokenSilentInternal Reference.config Reference.bareRequest
              Reference.staleWorld))
  ∧ ∃ calls,
      trace (snd (acquireTokenSilentInternal Reference.config
                    Reference.bareRequest Reference.staleWorld))
      = trace Reference.staleWorld ++ calls
      ∧ List.filter isGuidCall calls = [CryptoCreateNewGuid "g-0"]
      ∧ Forall (usesCorrelationId "g-0" Reference.bareRequestValid
                  (Returned Reference.grantedResult)) calls
      ∧ AuthenticationResult.correlationId Reference.grantedResult = "g-0".
Proof.
  split; [vm_compute; reflexivity|].
  split; [vm_compute; reflexivity|].
  destruct (generated_correlation_id_is_used_throughout Reference.config
              Reference.bareRequest Reference.staleWorld
              (snd (acquireTokenSilentInternal Reference.config
                      Reference.bareRequest Reference.staleWorld))
              (Returned Reference.grantedResult)
              ltac:(vm_compute; reflexivity)
              ltac:(left; vm_compute; reflexivity))
    as (_ & calls & Htrace & Hguid & _ & Huses & Hcopied).
  exists calls. split; [exact Htrace|]. split; [exact Hguid|].
  split; [exact Huses|].
  exact (Hcopied reference_adapter_copies _ eq_refl).
Defined.

Lemma unresolved_account_witness :
  resolveAccount Reference.bareRequest Reference.refusedWorld = None
  ∧ ∃ calls,
      trace (snd (acquireTokenSilent Reference.config Reference.bareRequest
                    Reference.refusedWorld))
      = trace Reference.refusedWorld ++ calls
      ∧ BridgeGetTokenSilent Reference.naaBareRequest ∈ calls.
Proof.
  split; [vm_compute; reflexivity|].
  destruct (unresolved_account_skips_only_the_cache_check Reference.config
              Reference.bareRequest Reference.refusedWorld)
    as (_ & _ & _ & Hnone).
  destruct (Hnone ltac:(vm_compute; reflexivity)) as [_ Hbridge].
  exact (Hbridge Reference.naaBareRequest ltac:(vm_compute; reflexivity)).
Defined.

Lemma lookup_request_witness :
  resolveAccount Reference.bareRequest Reference.cachedWorld
  = Some Reference.alice
  ∧ (∃ calls,
       trace (snd (acquireTokenFromCacheInternal Reference.config
                     Reference.bareRequest Reference.cachedWorld))
       = trace Reference.cachedWorld ++ calls
       ∧ StorageGetAccessToken Reference.alice
           (BaseAuthRequest.mk "g-0" "login.example.com" OIDC_DEFAULT_SCOPES
              None None)
           "tenant-1" ∈ calls).
Proof.
  assert (resolveAccount Reference.bareRequest Reference.cachedWorld
          = Some Reference.alice) as Hacct by (vm_compute; reflexivity).
  split; [exact Hacct|].
  exact (proj1 (lookup_request_is_normalized Reference.config
                  Reference.bareRequest Reference.cachedWorld Reference.alice
                  Hacct)).
Defined.

Lemma cache_check_events_witness :
  acquireTokenSilentInternal Reference.config Reference.bareRequest
    Reference.staleWorld
  = (Returned Reference.grantedResult,
     snd (acquireTokenSilentInternal Reference.config Reference.bareRequest
            Reference.staleWorld))
  ∧ ∃ calls,
      trace (snd (acquireTokenSilentInternal Reference.config
                    Reference.bareRequest Reference.staleWorld))
      = trace Reference.staleWorld ++ calls
      ∧ StartMeasurement SsoSilent (Some "g-0") ∈ calls
      ∧ ((∃ result,
            Returned Reference.grantedResult = Returned result
            ∧ events calls
              = [mkEvent ACQUIRE_TOKEN_START Silent
                         (PayloadRequest Reference.bareRequestValid) None;
                 mkEvent ACQUIRE_TOKEN_FAILURE Silent PayloadNull None;
                 mkEvent ACQUIRE_TOKEN_SUCCESS Silent
                         (PayloadResult result) None])
         ∨ (∃ e,
              Returned Reference.grantedResult
              = Threw (Reference.fromBridgeError e)
              ∧ events calls
                = [mkEvent ACQUIRE_TOKEN_START Silent
                           (PayloadRequest Reference.bareRequestValid) None;
                   mkEvent ACQUIRE_TOKEN_FAILURE Silent PayloadNull None;
                   mkEvent ACQUIRE_TOKEN_FAILURE Silent PayloadNull
                           (Some e)])).
Proof.
  assert (acquireTokenSilentInternal Reference.config Reference.bareRequest
            Reference.staleWorld
          = (Returned Reference.grantedResult,
             snd (acquireTokenSilentInternal Reference.config
                    Reference.bareRequest Reference.staleWorld)))
    as Hrun by (vm_compute; reflexivity).
  split; [exact Hrun|].
  exact (cache_check_events Reference.config Reference.bareRequest
           Reference.staleWorld _ _ Hrun).
Defined.

(** ** Facts about the Teams app operating context *)

Section OperatingContextFacts.
Import TeamsAppOperatingContext.
Context {Env P A : Type}.
Context `{Proxy : BridgeProxy.t Env P A}.

Ltac oc_unfold :=
  unfold initialize, setActiveAccount, assignActiveAccount,
    assignBridgeProxy, assignAvailable, readAvailable, note, onEnv,
    getBridgeProxy, getActiveAccount, tryCatch, bind, ret, throw.

Ltac oc_innermost x :=
  lazymatch x with
  | context [match ?y with _ => _ end] => oc_innermost y
  | _ => destruct x eqn:?
  end.

Ltac oc_cases :=
  repeat (cbn;
          match goal with
          | |- context [match ?x with _ => _ end] => oc_innermost x
          end);
  cbn.

(** X12. [initialize] never throws: whatever the bridge does, it returns
    a boolean.  When nested app auth is not supported it returns false and
    changes nothing; otherwise it returns the [available] flag it leaves,
    having logged it last. *)
Theorem initialize_never_throws (supportsNestedAppAuth windowDefined : bool)
    (this : TeamsAppOperatingContext.t Env P A) :
  ∃ b this',
    initialize supportsNestedAppAuth windowDefined this = (Returned b, this')
    ∧ (supportsNestedAppAuth = false → b = false ∧ this' = this)
    ∧ (supportsNestedAppAuth = true →
       b = available this'
       ∧ ∃ earlier, calls this' = earlier ++ [LoggerInfo b]).
Proof.
  oc_unfold.
  destruct supportsNestedAppAuth, windowDefined; oc_cases.
  all: eexists _, _; split; [reflexivity|]; cbn.
  all: split; intros Hs; try discriminate Hs.
  all: first [ split; reflexivity
             | split; [reflexivity|]; eexists; reflexivity ].
Qed.

(** X13. On a context that is not yet available, [initialize] returns
    true exactly when nested app auth is supported, a window exists and
    [BridgeProxy.create] succeeds; and then [getBridgeProxy] is the proxy
    that was created. *)
Theorem initialize_true_iff_bridge_created
    (supportsNestedAppAuth windowDefined : bool)
    (this this' : TeamsAppOperatingContext.t Env P A) (b : bool) :
  available this = false →
  initialize supportsNestedAppAuth windowDefined this = (Returned b, this') →
  (b = true
   ↔ supportsNestedAppAuth = true ∧ windowDefined = true
     ∧ ∃ proxy, fst (BridgeProxy.create (env this)) = inr proxy)
  ∧ (b = true →
     ∃ proxy,
       fst (BridgeProxy.create (env this)) = inr proxy
       ∧ getBridgeProxy this' = Some proxy).
Proof.
  intros Hfresh. oc_unfold.
  destruct supportsNestedAppAuth, windowDefined; oc_cases.
  all: rewrite ?Hfresh.
  all: intros [= <- <-]; cbn.
  all: split; [split|].
  all: try discriminate.
  all: try (intros (Hs & Hw & p & Hp); discriminate).
  all: try (intros _; eexists; split; reflexivity).
  all: try (intros _; repeat split; eexists; reflexivity).
Qed.

(** X14. [initialize] keeps the invariant that an available context has a
    bridge proxy, whatever the bridge does. *)
Theorem initialize_keeps_available_with_proxy
    (supportsNestedAppAuth windowDefined : bool)
    (this : TeamsAppOperatingContext.t Env P A) :
  (available this = true → getBridgeProxy this ≠ None) →
  available (snd (initialize supportsNestedAppAuth windowDefined this)) = true →
  getBridgeProxy (snd (initialize supportsNestedAppAuth windowDefined this))
  ≠ None.
Proof.
  intros Hinv. oc_unfold. unfold getBridgeProxy in Hinv.
  destruct supportsNestedAppAuth, windowDefined; oc_cases.
  all: first [exact Hinv | intros _; discriminate].
Qed.

(** X15. Once [BridgeProxy.create] has succeeded, nothing the account
    query does can make [initialize] fail: the context becomes available
    with the created proxy, and no failure is logged.  The active account
    is replaced only when the host reports the [queryAccount] capability
    and [getActiveAccount] answers; a query that throws leaves it as it
    was. *)
Theorem account_query_failure_is_ignored
    (this : TeamsAppOperatingContext.t Env P A) (proxy : P) (e1 : Env) :
  BridgeProxy.create (env this) = (inr proxy, e1) →
  ∃ this' new,
    initialize true true this = (Returned true, this')
    ∧ getBridgeProxy this' = Some proxy
    ∧ available this' = true
    ∧ calls this' = calls this ++ new
    ∧ forallb (fun c => match c with
                        | LoggerInfoPii _ => false
                        | _ => true
                        end) new = true
    ∧ getActiveAccount this'
      = match BridgeProxy.getHostCapabilities proxy e1 with
        | inr (Some capabilities) =>
            if queryAccount capabilities
            then match fst (BridgeProxy.getActiveAccount proxy e1) with
                 | inr account => account
                 | inl _ => activeAccount this
                 end
            else activeAccount this
        | _ => activeAccount this
        end.
Proof.
  intros Hcreate. oc_unfold. cbn. rewrite Hcreate. oc_cases.
  all: eexists _, _; split; [reflexivity|]; cbn.
  all: split; [reflexivity|]; split; [reflexivity|].
  all: split; [rewrite <- ?app_assoc; reflexivity|].
  all: split; reflexivity.
Qed.

(** X16. When [BridgeProxy.create] rejects, the error is logged and not
    thrown, and the context keeps its proxy, active account and
    [available] flag: [initialize] returns the flag as it was, so a context
    that was available stays available with its old proxy. *)
Theorem create_failure_keeps_the_context
    (this : TeamsAppOperatingContext.t Env P A) (ex : JsError) (e1 : Env) :
  BridgeProxy.create (env this) = (inl ex, e1) →
  initialize true true this
  = (Returned (available this),
     TeamsAppOperatingContext.mk (bridgeProxy this) (activeAccount this)
       (available this) e1
       (calls this
        ++ [BridgeProxyCreate; LoggerInfoPii ex; LoggerInfo (available this)])).
Proof.
  intros Hcreate. oc_unfold. cbn. rewrite Hcreate. cbn.
  rewrite <- !app_assoc. reflexivity.
Qed.

End OperatingContextFacts.

(** ** The further theorems at concrete inputs *)

Lemma lookup_writes_witness :
  acquireTokenFromCacheInternal Reference.config Reference.bareRequest
    Reference.staleWorld
  = (Returned None,
     snd (acquireTokenFromCacheInternal Reference.config
            Reference.bareRequest Reference.staleWorld))
  ∧ ∃ calls,
      trace (snd (acquireTokenFromCacheInternal Reference.config
                    Reference.bareRequest Reference.staleWorld))
      = trace Reference.staleWorld ++ calls
      ∧ forallb (fun c => negb (isBridgeTokenCall c)
                          && negb (isHydrationCall c)) calls = true.
Proof.
  assert (acquireTokenFromCacheInternal Reference.config
            Reference.bareRequest Reference.staleWorld
          = (Returned None,
             snd (acquireTokenFromCacheInternal Reference.config
                    Reference.bareRequest Reference.staleWorld)))
    as Hrun by (vm_compute; reflexivity).
  split; [exact Hrun|].
  destruct (lookup_writes_only_to_purge_stale Reference.config
              Reference.bareRequest Reference.staleWorld _ _ Hrun)
    as (calls & Htrace & Hcalls & _).
  exists calls. split; [exact Htrace | exact Hcalls].
Defined.

Lemma missing_access_token_witness :
  resolveAccount Reference.bareRequest Examples.noTokenWorld
  = Some Reference.alice
  ∧ ∃ w' calls,
      acquireTokenFromCacheInternal Reference.config Reference.bareRequest
        Examples.noTokenWorld
      = (Returned None, w')
      ∧ store w' = store Examples.noTokenWorld
      ∧ trace w' = trace Examples.noTokenWorld ++ calls
      ∧ forallb (fun c => match c with
                          | StorageGetIdToken _ _ => false
                          | _ => negb (isStorageWrite c)
                          end) calls = true.
Proof.
  assert (resolveAccount Reference.bareRequest Examples.noTokenWorld
          = Some Reference.alice) as Hacct by (vm_compute; reflexivity).
  split; [exact Hacct|].
  refine (missing_access_token_is_a_plain_miss Reference.config
            Reference.bareRequest Examples.noTokenWorld Reference.alice
            Hacct _).
  vm_compute; reflexivity.
Defined.

Lemma missing_id_token_witness :
  browserStorage.getIdToken Reference.alice
    (browserStorage.getTokenKeys (store Examples.noIdTokenWorld))
    "tenant-1" (store Examples.noIdTokenWorld) = None
  ∧ ∃ w' calls,
      acquireTokenFromCacheInternal Reference.config Reference.bareRequest
        Examples.noIdTokenWorld
      = (Returned None, w')
      ∧ store w' = store Examples.noIdTokenWorld
      ∧ trace w' = trace Examples.noIdTokenWorld ++ calls
      ∧ forallb (fun c => negb (isStorageWrite c)) calls = true.
Proof.
  split; [vm_compute; reflexivity|].
  refine (missing_id_token_is_a_miss_without_purge Reference.config
            Reference.bareRequest Examples.noIdTokenWorld Reference.alice
            (Reference.aliceAccessToken 5000) _ _ _ _ _);
    vm_compute; reflexivity.
Defined.

Lemma silent_result_origin_witness :
  acquireTokenSilentInternal Reference.config Reference.bareRequest
    Reference.staleWorld
  = (Returned Reference.grantedResult,
     snd (acquireTokenSilentInternal Reference.config Reference.bareRequest
            Reference.staleWorld))
  ∧ Reference.activeAccount
      (store (snd (acquireTokenSilentInternal Reference.config
                     Reference.bareRequest Reference.staleWorld)))
    = Some Reference.alice.
Proof.
  assert (acquireTokenSilentInternal Reference.config Reference.bareRequest
            Reference.staleWorld
          = (Returned Reference.grantedResult,
             snd (acquireTokenSilentInternal Reference.config
                    Reference.bareRequest Reference.staleWorld)))
    as Hrun by (vm_compute; reflexivity).
  split; [exact Hrun|].
  destruct (silent_result_origin Reference.config Reference.bareRequest
              Reference.staleWorld _ _ Hrun)
    as [(Hhit & _) | (_ & n & r & s2 & h' & calls & _ & _ & _ & _ & Hstore & _)].
  - vm_compute in Hhit. discriminate Hhit.
  - rewrite Hstore. reflexivity.
Defined.

Lemma interactive_result_origin_witness :
  acquireTokenInteractive Reference.bareRequest Reference.cachedWorld
  = (Returned Reference.grantedResult,
     snd (acquireTokenInteractive Reference.bareRequest Reference.cachedWorld))
  ∧ Reference.activeAccount
      (store (snd (acquireTokenInteractive Reference.bareRequest
                     Reference.cachedWorld)))
    = Some Reference.alice.
Proof.
  assert (acquireTokenInteractive Reference.bareRequest Reference.cachedWorld
          = (Returned Reference.grantedResult,
             snd (acquireTokenInteractive Reference.bareRequest
                    Reference.cachedWorld)))
    as Hrun by (vm_compute; reflexivity).
  split; [exact Hrun|].
  destruct (interactive_result_origin Reference.bareRequest
              Reference.cachedWorld _ _ Hrun)
    as (n & r & s2 & h' & calls & _ & _ & _ & _ & Hstore & _).
  rewrite Hstore. reflexivity.
Defined.

Lemma stale_token_refresh_witness :
  ∃ w',
    acquireTokenSilent Reference.config Reference.bareRequest
      Reference.staleWorld
    = (Returned Reference.grantedResult, w')
    ∧ Reference.accessTokens (store w') !! "alice.home"
      = Some (AccessTokenEntity.mk "alice.home" "tenant-1"
                ["openid"; "profile"] "at-new" 1000 4600)
    ∧ host w' = Reference.grantingHost.
Proof.
  destruct (stale_token_is_purged_then_refreshed Reference.config
              Reference.bareRequest Reference.staleWorld Reference.alice
              (Reference.aliceAccessToken 1030) Reference.naaBareRequest
              Reference.freshTokens Reference.grantingHost
              Reference.grantedResult
              (fst (Reference.hydrateCache Reference.grantedResult
                      Reference.bareRequest
                      (Reference.setAccount
                         (AccountEntity.mk Reference.alice None None)
                         (Reference.removeAccountContext
                            (AccountEntity.mk Reference.alice None None)
                            (Reference.aliceStore 1030))))))
    as (w' & Hrun & Hstore & Hhost); try (vm_compute; reflexivity).
  exists w'. split; [exact Hrun|]. split; [|exact Hhost].
  rewrite Hstore. vm_compute. reflexivity.
Defined.

Lemma supplied_correlation_id_witness :
  truthy (Request.correlationId Examples.identifiedRequest) = Some "corr-1"
  ∧ ∃ calls,
      trace (snd (acquireTokenSilentInternal Reference.config
                    Examples.identifiedRequest Reference.staleWorld))
      = trace Reference.staleWorld ++ calls
      ∧ guids (snd (acquireTokenSilentInternal Reference.config
                      Examples.identifiedRequest Reference.staleWorld))
        = guids Reference.staleWorld
      ∧ List.filter isGuidCall calls = []
      ∧ Forall (usesCorrelationId "corr-1" Examples.identifiedRequest
                  (fst (acquireTokenSilentInternal Reference.config
                          Examples.identifiedRequest Reference.staleWorld)))
               calls.
Proof.
  assert (truthy (Request.correlationId Examples.identifiedRequest)
          = Some "corr-1") as Hc by (vm_compute; reflexivity).
  split; [exact Hc|].
  exact (proj1 (supplied_correlation_id_is_kept Reference.config
                  Examples.identifiedRequest Reference.staleWorld "corr-1"
                  Hc)).
Defined.

#[global] Existing Instance TeamsAppOperatingContext.scripted.

Lemma initialize_true_witness :
  TeamsAppOperatingContext.available
    (TeamsAppOperatingContext.fresh TeamsAppOperatingContext.flakyHost)
  = false
  ∧ ∃ proxy,
      fst (TeamsAppOperatingContext.BridgeProxy.create
             TeamsAppOperatingContext.flakyHost) = inr proxy
      ∧ TeamsAppOperatingContext.getBridgeProxy
          (snd (TeamsAppOperatingContext.initialize true true
                  (TeamsAppOperatingContext.fresh
                     TeamsAppOperatingContext.flakyHost)))
        = Some proxy.
Proof.
  split; [reflexivity|].
  exact (proj2 (initialize_true_iff_bridge_created true true
                  (TeamsAppOperatingContext.fresh
                     TeamsAppOperatingContext.flakyHost)
                  (snd (TeamsAppOperatingContext.initialize true true
                          (TeamsAppOperatingContext.fresh
                             TeamsAppOperatingContext.flakyHost)))
                  true eq_refl eq_refl) eq_refl).
Defined.

Lemma initialize_keeps_invariant_witness :
  TeamsAppOperatingContext.available
    (snd (TeamsAppOperatingContext.initialize true true
            TeamsAppOperatingContext.availableThenNoHost)) = true
  ∧ TeamsAppOperatingContext.getBridgeProxy
      (snd (TeamsAppOperatingContext.initialize true true
              TeamsAppOperatingContext.availableThenNoHost))
    ≠ None.
Proof.
  split; [reflexivity|].
  apply (initialize_keeps_available_with_proxy true true
           TeamsAppOperatingContext.availableThenNoHost).
  - intros _. discriminate.
  - reflexivity.
Defined.

Lemma account_query_failure_witness :
  ∃ this' new,
    TeamsAppOperatingContext.initialize true true
      (TeamsAppOperatingContext.fresh TeamsAppOperatingContext.flakyHost)
    = (Returned true, this')
    ∧ TeamsAppOperatingContext.getBridgeProxy this' = Some 7%nat
    ∧ TeamsAppOperatingContext.available this' = true
    ∧ TeamsAppOperatingContext.calls this' = [] ++ new
    ∧ forallb (fun c => match c with
                        | TeamsAppOperatingContext.LoggerInfoPii _ => false
                        | _ => true
                        end) new = true
    ∧ TeamsAppOperatingContext.getActiveAccount this' = None.
Proof.
  exact (account_query_failure_is_ignored
           (TeamsAppOperatingContext.fresh TeamsAppOperatingContext.flakyHost)
           7%nat TeamsAppOperatingContext.flakyHost eq_refl).
Defined.

Lemma create_failure_witness :
  TeamsAppOperatingContext.initialize true true
    TeamsAppOperatingContext.availableThenNoHost
  = (Returned true,
     TeamsAppOperatingContext.mk (Some 3%nat) (Some "ann") true
       TeamsAppOperatingContext.noHost
       [TeamsAppOperatingContext.BridgeProxyCreate;
        TeamsAppOperatingContext.LoggerInfoPii
          TeamsAppOperatingContext.hostDown;
        TeamsAppOperatingContext.LoggerInfo true]).
Proof.
  exact (create_failure_keeps_the_context
           TeamsAppOperatingContext.availableThenNoHost
           TeamsAppOperatingContext.hostDown
           TeamsAppOperatingContext.noHost eq_refl).
Defined.
